(** * Trading-day calendar and market scheduler

    A shallow embedding of [trading_days.py] and [market_scheduler.py]:
    the trading calendar with its cache of trading dates fetched from
    akshare, and the scheduler that runs one task per trading day.

    Layout: the Python values the code works with (dates, exceptions),
    a state-and-exception monad, the two modules of the program, and
    then the properties of the specification. *)

From Stdlib Require Import ZArith Lia.
From stdpp Require Import base gmap strings list pretty.

Open Scope Z_scope.

(* ================================================================== *)
(** ** Python's [datetime.date] and [datetime.datetime] *)
(* ================================================================== *)

Module PyDatetime.

(** Exceptions, by the only distinction the program makes: the
    handlers are all [except Exception], which catches every instance
    of [Exception] and lets [SystemExit], [KeyboardInterrupt] and
    [GeneratorExit] (instances of [BaseException] only) through. *)
Inductive exn : Type :=
| Exception (what : string)
| BaseException (what : string).

Definition isinstance_Exception (e : exn) : bool :=
  match e with
  | Exception _ => true
  | BaseException _ => false
  end.

Definition OverflowError : exn := Exception "OverflowError: date value out of range".

(** The result of running a piece of code: a value or a raised exception. *)
Inductive result (A : Type) : Type :=
| Return (a : A)
| Raise (e : exn).
Arguments Return {A} a.
Arguments Raise {A} e.

(** [datetime.py]: day counts of the proleptic Gregorian calendar. *)
Definition _MAXORDINAL : Z := 3652059.

Definition _DAYS_IN_MONTH : list Z :=
  [-1; 31; 28; 31; 30; 31; 30; 31; 31; 30; 31; 30; 31].

Definition _DAYS_BEFORE_MONTH : list Z :=
  [-1; 0; 31; 59; 90; 120; 151; 181; 212; 243; 273; 304; 334].

Definition _is_leap (year : Z) : bool :=
  (year mod 4 =? 0) && (negb (year mod 100 =? 0) || (year mod 400 =? 0)).

Definition _days_before_year (year : Z) : Z :=
  let y := year - 1 in
  y * 365 + y / 4 - y / 100 + y / 400.

Definition _DI400Y : Z := Eval cbv in _days_before_year 401.
Definition _DI100Y : Z := Eval cbv in _days_before_year 101.
Definition _DI4Y : Z := Eval cbv in _days_before_year 5.

(** [_ord2ymd]: ordinal to (year, month, day), 01-Jan-0001 being day 1. *)
Definition _ord2ymd (n : Z) : Z * Z * Z :=
  let n := n - 1 in
  let n400 := n / _DI400Y in
  let n := n mod _DI400Y in
  let year := n400 * 400 + 1 in
  let n100 := n / _DI100Y in
  let n := n mod _DI100Y in
  let n4 := n / _DI4Y in
  let n := n mod _DI4Y in
  let n1 := n / 365 in
  let n := n mod 365 in
  let year := year + (n100 * 100 + n4 * 4 + n1) in
  if (n1 =? 4) || (n100 =? 4) then (year - 1, 12, 31)
  else
    let leapyear := (n1 =? 3) && (negb (n4 =? 24) || (n100 =? 3)) in
    let month := Z.shiftr (n + 50) 5 in
    let preceding :=
      nth (Z.to_nat month) _DAYS_BEFORE_MONTH 0
      + (if (2 <? month) && leapyear then 1 else 0) in
    let '(month, preceding) :=
      if n <? preceding then
        let month := month - 1 in
        (month,
         preceding - (nth (Z.to_nat month) _DAYS_IN_MONTH 0
                      + (if (month =? 2) && leapyear then 1 else 0)))
      else (month, preceding) in
    (year, month, n - preceding + 1).

(** A [date] is held as its proleptic Gregorian ordinal
    ([date.toordinal()], from 1 for 0001-01-01 to [_MAXORDINAL] for
    9999-12-31): dates compare as their ordinals do, and adding a
    [timedelta] works on the ordinal, as in [date.__add__]. *)
Record date : Type := fromordinal { toordinal : Z }.

Definition date_year (d : date) : Z := (_ord2ymd (toordinal d)).1.1.
Definition date_month (d : date) : Z := (_ord2ymd (toordinal d)).1.2.
Definition date_day (d : date) : Z := (_ord2ymd (toordinal d)).2.

(** [date.weekday()]: Monday is 0 and Sunday is 6. *)
Definition weekday (d : date) : Z := (toordinal d + 6) mod 7.

(** [d + timedelta(days=n)]: [OverflowError] outside the range of dates. *)
Definition date_add (d : date) (days : Z) : result date :=
  let o := toordinal d + days in
  if (0 <? o) && (o <=? _MAXORDINAL) then Return (fromordinal o)
  else Raise OverflowError.

(** [str(y)] of an int. *)
Definition str (y : Z) : string := pretty y.

Definition zfill2 (n : Z) : string :=
  if n <? 10 then "0" +:+ pretty n else pretty n.

(** [d.strftime('%Y-%m-%d')], with the year as glibc prints it. *)
Definition strftime_Ymd (d : date) : string :=
  str (date_year d) +:+ "-" +:+ zfill2 (date_month d) +:+ "-" +:+ zfill2 (date_day d).

(** [s.startswith(p)] *)
Definition startswith (s p : string) : bool := String.prefix p s.

Record datetime : Type := mkdatetime {
  dt_date : date;
  hour : Z;
  minute : Z;
  second : Z
}.

End PyDatetime.

Import PyDatetime.

(* ================================================================== *)
(** ** State and exceptions *)
(* ================================================================== *)

(** Code that reads and writes a state [S] and returns or raises. The
    state survives a raise: Python does not undo assignments. *)
Definition M (S A : Type) : Type := S -> result A * S.

Definition ret {S A} (a : A) : M S A := fun s => (Return a, s).

Definition raise {S A} (e : exn) : M S A := fun s => (Raise e, s).

Definition bind {S A B} (c : M S A) (k : A -> M S B) : M S B :=
  fun s =>
    match c s with
    | (Return a, s') => k a s'
    | (Raise e, s') => (Raise e, s')
    end.

Definition gets {S A} (f : S -> A) : M S A := fun s => (Return (f s), s).

Definition modify {S} (f : S -> S) : M S unit := fun s => (Return tt, f s).

Definition lift_result {S A} (r : result A) : M S A := fun s => (r, s).

(** [try: body except Exception as e: handler e] *)
Definition try_except_Exception {S A} (body : M S A) (handler : exn -> M S A) : M S A :=
  fun s =>
    match body s with
    | (Return a, s') => (Return a, s')
    | (Raise e, s') =>
        if isinstance_Exception e then handler e s' else (Raise e, s')
    end.

Declare Scope py_scope.
Delimit Scope py_scope with py.
Notation "x <- c ;; k" := (bind c (fun x => k))
  (at level 100, c at next level, right associativity) : py_scope.
Notation "c ;;; k" := (bind c (fun _ => k))
  (at level 100, right associativity) : py_scope.
Open Scope py_scope.

(* ================================================================== *)
(** ** trading_days.py *)
(* ================================================================== *)

Module TradingDays.

(** What one call of [ak.tool_trade_date_hist_sina()] gives: it raises
    (a network or parsing error, also a frame without the
    [trade_date] column), returns [None], or returns a frame, held
    here as its [trade_date] column after [astype(str)]. *)
Inductive response : Type :=
| Fails (what : string)
| NoFrame
| Frame (trade_date : list string).

(** The interpreter's dealings with the outside: how many calls of
    [ak.tool_trade_date_hist_sina] and how many readings of the clock
    have been made, how many [time.sleep(30)] have been slept and how
    many times the task callback has been invoked. *)
Record World : Type := mkWorld {
  fetches : nat;
  ticks : nat;
  naps : nat;
  runs : nat
}.

Definition fetched (w : World) : World :=
  mkWorld (S (fetches w)) (ticks w) (naps w) (runs w).
Definition ticked (w : World) : World :=
  mkWorld (fetches w) (S (ticks w)) (naps w) (runs w).
Definition slept (w : World) : World :=
  mkWorld (fetches w) (ticks w) (S (naps w)) (runs w).
Definition invoked (w : World) : World :=
  mkWorld (fetches w) (ticks w) (naps w) (S (runs w)).

(** class TradingCalendar *)
Record TradingCalendar : Type := mkTradingCalendar {
  _trading_days : gset string;
  _last_fetch_year : option Z;
  _fetch_year_range : Z
}.

(** [TradingCalendar.__init__] *)
Definition __init__ : TradingCalendar :=
  {| _trading_days := ∅; _last_fetch_year := None; _fetch_year_range := 2 |}.

(** A method runs on its object and on the world. *)
Record State : Type := mkState {
  self : TradingCalendar;
  world : World
}.

Definition set_world (f : World -> World) (s : State) : State :=
  mkState (self s) (f (world s)).

Definition set_cache (trading_days : gset string) (year : Z) (s : State) : State :=
  mkState (mkTradingCalendar trading_days (Some year) (_fetch_year_range (self s)))
          (world s).

(** [range(a, b)] *)
Definition range (a b : Z) : list Z := seqZ a (b - a).

Section Calendar.

(** The calendar source: the response to the call number [n]. *)
Variable tool_trade_date_hist_sina : nat -> response.

(** The clock: the reading number [n] of [datetime.now()]. *)
Variable now : nat -> datetime.

Definition datetime_now : M State datetime :=
  fun s => (Return (now (ticks (world s))), set_world ticked s).

Definition date_today : M State date :=
  t <- datetime_now ;; ret (dt_date t).

(** [df = ak.tool_trade_date_hist_sina()] *)
Definition call_source : M State (option (list string)) :=
  fun s =>
    let s' := set_world fetched s in
    match tool_trade_date_hist_sina (fetches (world s)) with
    | Fails what => (Raise (Exception what), s')
    | NoFrame => (Return None, s')
    | Frame rows => (Return (Some rows), s')
    end.

(** [set(df[df['trade_date'].str.startswith(str(y))]['trade_date'])] *)
Definition year_days (rows : list string) (y : Z) : gset string :=
  list_to_set (filter (fun d => startswith d (str y) = true) rows).

(** The loop [for y in range(...)] of [_fetch_trading_days], on the
    years left and the local [trading_days]. *)
Fixpoint fetch_years (years : list Z) (trading_days : gset string)
  : M State (gset string) :=
  match years with
  | [] => ret trading_days
  | y :: years' =>
      trading_days' <-
        try_except_Exception
          (df <- call_source ;;
           match df with
           | Some ((_ :: _) as rows) => ret (trading_days ∪ year_days rows y)
           | _ => ret trading_days
           end)
          (fun _ => ret trading_days) ;;
      fetch_years years' trading_days'
  end.

Definition _fetch_trading_days (target_date : date) : M State (gset string) :=
  try_except_Exception
    (let year := date_year target_date in
     last <- gets (fun s => _last_fetch_year (self s)) ;;
     if bool_decide (last = Some year) then
       gets (fun s => _trading_days (self s))
     else
       r <- gets (fun s => _fetch_year_range (self s)) ;;
       trading_days <- fetch_years (range (year - r) (year + r + 1)) ∅ ;;
       modify (set_cache trading_days year) ;;;
       ret trading_days)
    (fun _ => ret ∅).

Definition is_trading_day (target_date : option date) : M State bool :=
  target_date <- match target_date with
                 | None => date_today
                 | Some d => ret d
                 end ;;
  let weekday := weekday target_date in
  if 5 <=? weekday then ret false
  else
    try_except_Exception
      (trading_days <- _fetch_trading_days target_date ;;
       if bool_decide (trading_days ≠ ∅) then
         let date_str := strftime_Ymd target_date in
         ret (bool_decide (date_str ∈ trading_days))
       else
         ret (weekday <? 5))
      (fun _ => ret (weekday <? 5)).

(** The loop [for _ in range(max_days)] of [get_next_trading_day]. *)
Fixpoint scan (rounds : nat) (check_date : date) : M State (option date) :=
  match rounds with
  | O => ret None
  | S rounds' =>
      found <- is_trading_day (Some check_date) ;;
      if found then ret (Some check_date)
      else
        check_date' <- lift_result (date_add check_date 1) ;;
        scan rounds' check_date'
  end.

Definition get_next_trading_day (target_date : option date) (max_days : Z)
  : M State (option date) :=
  target_date <- match target_date with
                 | None => date_today
                 | Some d => ret d
                 end ;;
  check_date <- lift_result (date_add target_date 1) ;;
  scan (Z.to_nat max_days) check_date.

Definition is_market_open_time (current_time : option datetime) : M State bool :=
  current_time <- match current_time with
                  | None => datetime_now
                  | Some t => ret t
                  end ;;
  open_day <- is_trading_day (Some (dt_date current_time)) ;;
  if negb open_day then ret false
  else
    let hour := hour current_time in
    let minute := minute current_time in
    let time_value := hour * 100 + minute in
    ret ((930 <=? time_value) && (time_value <=? 1130)
         || (1300 <=? time_value) && (time_value <=? 1500)).

End Calendar.

End TradingDays.


(* ================================================================== *)
(** ** market_scheduler.py *)
(* ================================================================== *)

Module MarketSchedule.

Import TradingDays.

(** A task callback, by what one invocation of it does: the invocation
    number [n] (counted over the process) returns ([None]) or raises. *)
Definition Callable : Type := nat -> option exn.

(** A job of the [schedule] library, registered by
    [schedule.every().day.at(t).do(scheduled_job)]. The only function
    the program registers is the closure [scheduled_job] of
    [set_daily_task], which reads the scheduler's fields when it runs. *)
Record Job : Type := mkJob {
  at_time : string;
  next_run : datetime
}.

(** The signals the program handles, and a call of [stop()] made while
    the loop runs. *)
Inductive signal : Type := SIGINT | SIGTERM.

Inductive async : Type :=
| Signal (signum : signal)
| Stop.

(** The process: the global calendar of [trading_days], the jobs of
    the [schedule] module, and the fields of the one [MarketScheduler]
    with its [GracefulShutdown]. *)
Record Process : Type := mkProcess {
  _trading_calendar_instance : option TradingCalendar;
  jobs : list Job;
  schedule_time : string;
  shutdown_requested : bool;
  _task_callback : option Callable;
  _running : bool;
  env : World
}.

Definition set_instance (c : option TradingCalendar) (p : Process) : Process :=
  mkProcess c (jobs p) (schedule_time p) (shutdown_requested p)
            (_task_callback p) (_running p) (env p).
Definition set_jobs (js : list Job) (p : Process) : Process :=
  mkProcess (_trading_calendar_instance p) js (schedule_time p) (shutdown_requested p)
            (_task_callback p) (_running p) (env p).
Definition set_shutdown_requested (b : bool) (p : Process) : Process :=
  mkProcess (_trading_calendar_instance p) (jobs p) (schedule_time p) b
            (_task_callback p) (_running p) (env p).
Definition set_task_callback (t : option Callable) (p : Process) : Process :=
  mkProcess (_trading_calendar_instance p) (jobs p) (schedule_time p) (shutdown_requested p)
            t (_running p) (env p).
Definition set_running (b : bool) (p : Process) : Process :=
  mkProcess (_trading_calendar_instance p) (jobs p) (schedule_time p) (shutdown_requested p)
            (_task_callback p) b (env p).
Definition set_env (w : World) (p : Process) : Process :=
  mkProcess (_trading_calendar_instance p) (jobs p) (schedule_time p) (shutdown_requested p)
            (_task_callback p) (_running p) w.

(** [MarketScheduler.__init__], the [schedule] library being installed:
    a fresh interpreter in which no calendar exists and no job is
    registered. *)
Definition __init__ (schedule_time : string) : Process :=
  {| _trading_calendar_instance := None;
     jobs := [];
     schedule_time := schedule_time;
     shutdown_requested := false;
     _task_callback := None;
     _running := false;
     env := mkWorld 0 0 0 0 |}.

(** [a <= b] on [datetime] values. *)
Definition datetime_leb (a b : datetime) : bool :=
  let oa := toordinal (dt_date a) in
  let ob := toordinal (dt_date b) in
  (oa <? ob)
  || (oa =? ob)
     && ((hour a <? hour b)
         || (hour a =? hour b)
            && ((minute a <? minute b)
                || (minute a =? minute b) && (second a <=? second b))).

Section Scheduler.

Variable tool_trade_date_hist_sina : nat -> response.
Variable now : nat -> datetime.

(** The [schedule] library: whether [at(t)] accepts the time string of
    a daily job (it raises [ScheduleValueError] otherwise), and the
    next run it computes for such a job at a reading of the clock. *)
Variable valid_at : string -> bool.
Variable next_run_at : string -> datetime -> datetime.

(** What arrives while the sleep number [n] is slept. *)
Variable arrivals : nat -> list async.

Definition datetime_now : M Process datetime :=
  fun p => (Return (now (ticks (env p))), set_env (ticked (env p)) p).

(** *** trading_days.py, module level *)

Definition get_trading_calendar : M Process TradingCalendar :=
  fun p =>
    match _trading_calendar_instance p with
    | None => (Return TradingDays.__init__, set_instance (Some TradingDays.__init__) p)
    | Some c => (Return c, p)
    end.

(** A method call on the global calendar: the object is changed in place. *)
Definition on_calendar {A} (c : TradingCalendar) (method : M State A) : M Process A :=
  fun p =>
    let '(r, s) := method (mkState c (env p)) in
    (r, set_env (world s) (set_instance (Some (self s)) p)).

Definition is_trading_day (target_date : option date) : M Process bool :=
  c <- get_trading_calendar ;;
  on_calendar c (TradingDays.is_trading_day tool_trade_date_hist_sina now target_date).

Definition get_next_trading_day (target_date : option date) (max_days : Z)
  : M Process (option date) :=
  c <- get_trading_calendar ;;
  on_calendar c (TradingDays.get_next_trading_day tool_trade_date_hist_sina now
                   target_date max_days).

(** *** class GracefulShutdown *)

Definition _signal_handler (signum : signal) : M Process unit :=
  requested <- gets shutdown_requested ;;
  if negb requested then modify (set_shutdown_requested true) else ret tt.

Definition should_shutdown : M Process bool := gets shutdown_requested.

(** *** class MarketScheduler *)

Definition _should_execute_task : M Process bool := is_trading_day None.

Definition _safe_run_task : M Process unit :=
  callback <- gets _task_callback ;;
  match callback with
  | None => ret tt
  | Some task =>
      try_except_Exception
        (_ <- datetime_now ;;
         n <- gets (fun p => runs (env p)) ;;
         modify (fun p => set_env (invoked (env p)) p) ;;;
         match task n with
         | Some e => raise e
         | None => _ <- datetime_now ;; ret tt
         end)
        (fun _ => ret tt)
  end.

(** The closure [scheduled_job] of [set_daily_task]. *)
Definition scheduled_job : M Process unit :=
  go <- _should_execute_task ;;
  if go then _safe_run_task else ret tt.

(** [schedule.every().day.at(t).do(scheduled_job)] *)
Definition every_day_at_do (t : string) : M Process unit :=
  if valid_at t then
    t0 <- datetime_now ;;
    modify (fun p => set_jobs (jobs p ++ [mkJob t (next_run_at t t0)]) p)
  else raise (Exception "ScheduleValueError: Invalid time format").

(** [schedule.run_pending()] on the jobs from position [i] on: a job
    whose [next_run] has come runs its function and is given its next
    run; a job function that raises ends the round. *)
Fixpoint run_jobs (count : nat) (i : nat) : M Process unit :=
  match count with
  | O => ret tt
  | S count' =>
      job <- gets (fun p => jobs p !! i) ;;
      match job with
      | None => ret tt
      | Some j =>
          t <- datetime_now ;;
          (if datetime_leb (next_run j) t then
             scheduled_job ;;;
             t' <- datetime_now ;;
             modify (fun p => set_jobs (<[i := mkJob (at_time j) (next_run_at (at_time j) t')]> (jobs p)) p)
           else ret tt) ;;;
          run_jobs count' (S i)
      end
  end.

Definition run_pending : M Process unit :=
  n <- gets (fun p => length (jobs p)) ;;
  run_jobs n 0%nat.

Definition set_daily_task (task : Callable) (run_immediately : bool) : M Process unit :=
  modify (set_task_callback (Some task)) ;;;
  t <- gets schedule_time ;;
  every_day_at_do t ;;;
  if run_immediately then
    go <- _should_execute_task ;;
    if go then _safe_run_task else ret tt
  else ret tt.

Definition stop : M Process unit := modify (set_running false).

(** [_get_next_run_time]: the earliest [next_run] of the jobs, if any. *)
Definition _get_next_run_time : M Process (option datetime) :=
  gets (fun p =>
          foldr (fun j acc =>
                   match acc with
                   | None => Some (next_run j)
                   | Some t => Some (if datetime_leb (next_run j) t then next_run j else t)
                   end) None (jobs p)).

Definition deliver (a : async) : M Process unit :=
  match a with
  | Signal signum => _signal_handler signum
  | Stop => stop
  end.

Fixpoint deliver_all (l : list async) : M Process unit :=
  match l with
  | [] => ret tt
  | a :: l' => deliver a ;;; deliver_all l'
  end.

(** [time.sleep(30)]: the process sleeps, and what arrives meanwhile
    is handled before the sleep returns. *)
Definition time_sleep_30 : M Process unit :=
  n <- gets (fun p => naps (env p)) ;;
  modify (fun p => set_env (slept (env p)) p) ;;;
  deliver_all (arrivals n).

(** The hourly heartbeat at the end of the loop body. *)
Definition heartbeat : M Process unit :=
  t1 <- datetime_now ;;
  if minute t1 =? 0 then
    t2 <- datetime_now ;;
    if second t2 <? 30 then _ <- _get_next_run_time ;; ret tt else ret tt
  else ret tt.

(** From [time.sleep(30)] to the end of the loop body. *)
Definition sleep_phase : M Process unit :=
  time_sleep_30 ;;; heartbeat.

Definition loop_condition (p : Process) : bool :=
  _running p && negb (shutdown_requested p).

(** The [while] loop of [run], with fuel: [None] when the fuel runs
    out before the loop ends. *)
Fixpoint run_loop (fuel : nat) (p : Process) : option (result unit * Process) :=
  if loop_condition p then
    match fuel with
    | O => None
    | S fuel' =>
        match (run_pending ;;; sleep_phase) p with
        | (Return _, p') => run_loop fuel' p'
        | (Raise e, p') => Some (Raise e, p')
        end
    end
  else Some (Return tt, p).

Definition run (fuel : nat) (p : Process) : option (result unit * Process) :=
  match (modify (set_running true) ;;; _get_next_run_time) p with
  | (Return _, p') => run_loop fuel p'
  | (Raise e, p') => Some (Raise e, p')
  end.


End Scheduler.

End MarketSchedule.


(* ================================================================== *)
(** ** Notions used to state the properties *)
(* ================================================================== *)

Module Notions.

Import TradingDays MarketSchedule.

(** The world after [n] more calls of the calendar source. *)
Definition add_fetches (n : nat) (w : World) : World :=
  mkWorld (fetches w + n)%nat (ticks w) (naps w) (runs w).

(** What the loop body of [_fetch_trading_days] adds to [trading_days]
    for the year [y], from the response of the source. *)
Definition contribution (r : response) (y : Z) : gset string :=
  match r with
  | Frame rows => year_days rows y
  | _ => ∅
  end.

(** The set the loop builds from the call number [n] on. *)
Fixpoint collected (src : nat -> response) (n : nat) (years : list Z) (acc : gset string) : gset string :=
  match years with
  | [] => acc
  | y :: years' => collected src (S n) years' (acc ∪ contribution (src n) y)
  end.

(** The years [range(year - r, year + r + 1)] fetched around a date. *)
Definition window (d : date) (s : State) : list Z :=
  range (date_year d - _fetch_year_range (self s))
        (date_year d + _fetch_year_range (self s) + 1).

(** The source fails, or returns no date of the year [y]. *)
Definition no_dates (r : response) (y : Z) : Prop :=
  match r with
  | Fails _ => True
  | NoFrame => True
  | Frame rows => ∀ x, x ∈ rows → startswith x (str y) = false
  end.

(** The scheduler's own fields and the count of sleeps are as before. *)
Definition steady (p p' : Process) : Prop :=
  schedule_time p' = schedule_time p
  ∧ shutdown_requested p' = shutdown_requested p
  ∧ _task_callback p' = _task_callback p
  ∧ _running p' = _running p
  ∧ naps (env p') = naps (env p).


Definition is_signal (a : async) : bool :=
  match a with Signal _ => true | Stop => false end.

Definition is_stop (a : async) : bool :=
  match a with Signal _ => false | Stop => true end.

Section Scan.

Variable src : nat -> response.
Variable now : nat -> datetime.

(** The candidate number [k] after [d], and the scan of
    [get_next_trading_day] retold: the state once the candidates 1 to
    [k] have been asked about, and the answer for the candidate [k]. *)
Definition candidate (d : date) (k : nat) : date :=
  fromordinal (toordinal d + Z.of_nat k).

Fixpoint probe (d : date) (k : nat) (s : State) : State :=
  match k with
  | O => s
  | S k' => snd (TradingDays.is_trading_day src now (Some (candidate d k)) (probe d k' s))
  end.

Definition asked (d : date) (k : nat) (s : State) : result bool :=
  fst (TradingDays.is_trading_day src now (Some (candidate d k)) (probe d (pred k) s)).

End Scan.

Section Registration.

Variable now : nat -> datetime.
Variable next_run_at : string -> datetime -> datetime.

(** The process once [set_daily_task] has stored the callback and
    registered the daily job. *)
Definition registered (task : Callable) (p : Process) : Process :=
  let t := schedule_time p in
  set_jobs (jobs p ++ [mkJob t (next_run_at t (now (ticks (env p))))])
    (set_env (ticked (env p)) (set_task_callback (Some task) p)).

End Registration.

(** The source never gives a date: every call fails, returns [None],
    or returns a frame with no date of the year asked for. *)
Definition silent (src : nat -> response) : Prop :=
  ∀ n y, no_dates (src n) y.

(** [h1:m1 <= h2:m2] on clock times, and the two sessions of the
    market told by the clock: 09:30 to 11:30 and 13:00 to 15:00. *)
Definition clock_leb (h1 m1 h2 m2 : Z) : bool :=
  (h1 <? h2) || (h1 =? h2) && (m1 <=? m2).

Definition in_session (h m : Z) : bool :=
  clock_leb 9 30 h m && clock_leb h m 11 30
  || clock_leb 13 0 h m && clock_leb h m 15 0.

End Notions.

(* ================================================================== *)
(** ** Scenarios: concrete sources, clocks, tasks and states *)
(* ================================================================== *)

Module Scenarios.

Import TradingDays MarketSchedule.

(** A source that is unreachable, and one that answers. *)
Definition offline : nat -> response := fun _ => Fails "network unreachable".

Definition sina : nat -> response :=
  fun _ => Frame ["2023-12-29"; "2024-01-04"; "2024-01-05"; "2024-01-08"; "2025-01-02"].

(** 2024-01-04, 2024-01-05, 2024-01-06, 2030-01-04 and 9999-12-31. *)
Definition thursday : date := fromordinal 738889.
Definition friday : date := fromordinal 738890.
Definition saturday : date := fromordinal 738891.
Definition friday_2030 : date := fromordinal 741081.
Definition last_day : date := fromordinal _MAXORDINAL.

Definition noon : nat -> datetime := fun _ => mkdatetime friday 12 0 0.

Definition weekend_noon : nat -> datetime := fun _ => mkdatetime saturday 12 0 0.

(** A calendar just constructed, in a world where nothing has happened. *)
Definition blank : State := mkState TradingDays.__init__ (mkWorld 0 0 0 0).

(** A calendar that holds the dates of 2024 it fetched earlier. *)
Definition stocked : State :=
  mkState (mkTradingCalendar {["2024-01-04"; "2024-01-05"]} (Some 2024) 2)
          (mkWorld 5 0 0 0).

(** The [schedule] library taking every time string, and running the
    job again the next day at 15:05. *)
Definition accept : string -> bool := fun _ => true.

Definition next_day : string -> datetime -> datetime :=
  fun _ t => mkdatetime (fromordinal (toordinal (dt_date t) + 1)) 15 5 0.

(** Tasks: one that returns, one that raises an error, one that calls
    [sys.exit(1)]. *)
Definition quiet : Callable := fun _ => None.



(** A SIGINT during every sleep. *)
Definition ctrl_c : nat -> list async := fun _ => [Signal SIGINT].

(** A scheduler just constructed for 15:05, and the same once a task
    is registered and [run] has set the running flag. *)
Definition office : Process := MarketSchedule.__init__ "15:05".

Definition at_work (task : Callable) : Process :=
  set_running true (Notions.registered noon next_day task office).

(** 2024-01-08, a Monday, and 9999-12-30, a Thursday. *)
Definition monday : date := fromordinal 738893.
Definition penultimate_day : date := fromordinal 3652058.

(** A calendar of the year 9999 that lists 9999-12-30 only. *)
Definition year_end : State :=
  mkState (mkTradingCalendar {["9999-12-30"]} (Some 9999) 2) (mkWorld 5 0 0 0).

(** A scheduler at work that has got a signal. *)
Definition signalled : Process := set_shutdown_requested true (at_work quiet).

End Scenarios.

(* ================================================================== *)
(** ** Properties of trading_days.py *)
(* ================================================================== *)

Module CalendarFacts.

Import TradingDays Notions Scenarios.

Ltac py_unfold :=
  unfold bind, ret, gets, modify, raise, lift_result, try_except_Exception.

Lemma year_days_nil y : year_days [] y = ∅.
Proof. reflexivity. Qed.

Lemma fetched_add_fetches n s :
  set_world (add_fetches n) (set_world fetched s) = set_world (add_fetches (S n)) s.
Proof.
  destruct s as [c [f t k r]]. unfold set_world, add_fetches, fetched; cbn.
  do 2 f_equal. lia.
Qed.

Lemma add_fetches_0 s : set_world (add_fetches 0) s = s.
Proof.
  destruct s as [c [f t k r]]. unfold set_world, add_fetches; cbn.
  do 2 f_equal. lia.
Qed.

(** The loop of [_fetch_trading_days] never raises: it calls the
    source once per year and returns the collected set. *)
Lemma fetch_years_spec src years : forall acc s,
  fetch_years src years acc s
  = (Return (collected src (fetches (world s)) years acc),
     set_world (add_fetches (length years)) s).
Proof.
  induction years as [|y years IH]; intros acc s.
  - cbn. py_unfold. by rewrite add_fetches_0.
  - cbn [fetch_years collected length].
    unfold bind at 1, try_except_Exception, bind, call_source.
    destruct (src (fetches (world s))) as [what| |rows] eqn:E; cbn [isinstance_Exception contribution].
    + unfold ret. rewrite IH, fetched_add_fetches. cbn. by rewrite (right_id_L ∅ (∪)).
    + unfold ret. rewrite IH, fetched_add_fetches. cbn. by rewrite (right_id_L ∅ (∪)).
    + destruct rows as [|x rows]; unfold ret; rewrite IH, fetched_add_fetches;
        cbn [fetches world set_world fetched].
      * by rewrite year_days_nil, (right_id_L ∅ (∪)).
      * done.
Qed.

Lemma elem_of_year_days x rows y :
  x ∈ year_days rows y ↔ x ∈ rows ∧ startswith x (str y) = true.
Proof.
  unfold year_days. rewrite elem_of_list_to_set, list_elem_of_filter. tauto.
Qed.

Lemma elem_of_collected src x years : forall n acc,
  x ∈ collected src n years acc ↔
  x ∈ acc ∨ ∃ (i : nat) y rows,
      years !! i = Some y ∧ src (n + i)%nat = Frame rows
      ∧ x ∈ rows ∧ startswith x (str y) = true.
Proof.
  induction years as [|y years IH]; intros n acc; cbn [collected].
  - split; [by left|]. intros [H|(i & y & rows & H & _)]; [done|]. by destruct i.
  - rewrite IH, elem_of_union. split.
    + intros [[H|H]|(i & y' & rows & Hi & Hs & Hx)].
      * by left.
      * right. destruct (src n) as [| |rows] eqn:E; cbn in H;
          [by apply not_elem_of_empty in H .. |].
        apply elem_of_year_days in H. exists 0%nat, y, rows.
        rewrite Nat.add_0_r. destruct H; auto.
      * right. exists (S i), y', rows. replace (n + S i)%nat with (S n + i)%nat by lia.
        destruct Hx; auto.
    + intros [H|(i & y' & rows & Hi & Hs & Hx)]; [by left; left|].
      destruct i as [|i].
      * left; right. rewrite Nat.add_0_r in Hs. rewrite Hs. cbn in Hi. injection Hi as ->.
        cbn. by apply elem_of_year_days.
      * right. exists i, y', rows. replace (S n + i)%nat with (n + S i)%nat by lia.
        destruct Hx; auto.
Qed.

Section Calendar.

Variable src : nat -> response.
Variable now : nat -> datetime.

(** The two ways through [_fetch_trading_days]. *)
Lemma fetch_hit d s :
  _last_fetch_year (self s) = Some (date_year d) ->
  _fetch_trading_days src d s = (Return (_trading_days (self s)), s).
Proof.
  intros H. unfold _fetch_trading_days. py_unfold. cbn.
  by rewrite bool_decide_eq_true_2.
Qed.

Lemma fetch_miss d s :
  _last_fetch_year (self s) ≠ Some (date_year d) ->
  _fetch_trading_days src d s
  = (Return (collected src (fetches (world s)) (window d s) ∅),
     set_cache (collected src (fetches (world s)) (window d s) ∅) (date_year d)
       (set_world (add_fetches (length (window d s))) s)).
Proof.
  intros H. unfold _fetch_trading_days, try_except_Exception, bind at 1, gets at 1.
  rewrite bool_decide_eq_false_2 by done.
  unfold bind at 1, gets at 1, bind at 1. rewrite fetch_years_spec.
  by py_unfold.
Qed.

Lemma is_trading_day_weekend d s :
  5 <= weekday d -> is_trading_day src now (Some d) s = (Return false, s).
Proof.
  intros H. unfold is_trading_day, bind, ret.
  destruct (5 <=? weekday d) eqn:E; [done|]. apply Z.leb_gt in E. lia.
Qed.

(** What [is_trading_day] answers on a weekday, from the set that
    [_fetch_trading_days] returns. *)
Lemma is_trading_day_weekday d s :
  weekday d < 5 ->
  is_trading_day src now (Some d) s
  = (Return (let td := match fst (_fetch_trading_days src d s) with
                       | Return td => td
                       | Raise _ => ∅
                       end in
             if bool_decide (td ≠ ∅) then bool_decide (strftime_Ymd d ∈ td) else true),
     snd (_fetch_trading_days src d s)).
Proof.
  intros H. unfold is_trading_day, bind at 1, ret at 1.
  destruct (5 <=? weekday d) eqn:E; [apply Z.leb_le in E; lia|].
  assert (Hw : (weekday d <? 5) = true) by (apply Z.ltb_lt; lia).
  unfold try_except_Exception, bind.
  destruct (decide (_last_fetch_year (self s) = Some (date_year d))) as [Hy|Hy].
  - rewrite fetch_hit by done. cbn. unfold ret. rewrite Hw. by case_bool_decide.
  - rewrite fetch_miss by done. cbn. unfold ret. rewrite Hw. by case_bool_decide.
Qed.

Lemma is_trading_day_returns d s :
  ∃ b, fst (is_trading_day src now (Some d) s) = Return b.
Proof.
  destruct (Z_lt_le_dec (weekday d) 5).
  - rewrite is_trading_day_weekday by done. eauto.
  - rewrite is_trading_day_weekend by done. eauto.
Qed.

End Calendar.

Section Frame.

Variable src : nat -> response.
Variable now : nat -> datetime.

Lemma is_trading_day_today s :
  TradingDays.is_trading_day src now None s
  = TradingDays.is_trading_day src now (Some (dt_date (now (ticks (world s)))))
      (set_world ticked s).
Proof. reflexivity. Qed.

(** [is_trading_day] returns, and neither sleeps nor runs the task. *)
Lemma is_trading_day_frame target s :
  ∃ b, fst (TradingDays.is_trading_day src now target s) = Return b
       ∧ naps (world (snd (TradingDays.is_trading_day src now target s))) = naps (world s)
       ∧ runs (world (snd (TradingDays.is_trading_day src now target s))) = runs (world s).
Proof.
  assert (G : ∀ d s, ∃ b, fst (TradingDays.is_trading_day src now (Some d) s) = Return b
       ∧ naps (world (snd (TradingDays.is_trading_day src now (Some d) s))) = naps (world s)
       ∧ runs (world (snd (TradingDays.is_trading_day src now (Some d) s))) = runs (world s)).
  { clear s. intros d s. destruct (Z_lt_le_dec (weekday d) 5).
    - rewrite is_trading_day_weekday by done. eexists; split; [done|]. cbn [snd].
      destruct (decide (_last_fetch_year (self s) = Some (date_year d))).
      + by rewrite fetch_hit.
      + by rewrite fetch_miss.
    - rewrite is_trading_day_weekend by done. eauto. }
  destruct target as [d|]; [apply G|].
  rewrite is_trading_day_today. destruct (G (dt_date (now (ticks (world s)))) (set_world ticked s))
    as (b & ? & ? & ?). eauto.
Qed.

End Frame.

Section Claims.

Variable src : nat -> response.
Variable now : nat -> datetime.

(** C1 (as amended): on a trading day [is_market_open_time] is true
    at 09:30:00 and at 15:00:00, and also at 11:30:01, because only the
    hour and the minute are compared (11:30:01 is 1130, inside the
    morning window); it is false at 09:29:59 and at 12:59:59; and on a
    day that is not a trading day it is false at every clock time.
    Here [b] is the answer of [is_trading_day] for the date. *)
Theorem market_open_time_by_hour_and_minute (d : date) (s : State) (b : bool) :
  fst (is_trading_day src now (Some d) s) = Return b →
  let open_at h m sec :=
    fst (is_market_open_time src now (Some (mkdatetime d h m sec)) s) in
  open_at 9 30 0 = Return b
  ∧ open_at 15 0 0 = Return b
  ∧ open_at 11 30 1 = Return b
  ∧ open_at 9 29 59 = Return false
  ∧ open_at 12 59 59 = Return false
  ∧ (b = false → ∀ h m sec, open_at h m sec = Return false).
Proof.
  intros H open_at.
  assert (G : ∀ h m sec, open_at h m sec
     = Return (b && ((930 <=? h * 100 + m) && (h * 100 + m <=? 1130)
                     || (1300 <=? h * 100 + m) && (h * 100 + m <=? 1500)))).
  { intros h m sec. subst open_at. cbn beta. unfold is_market_open_time, bind, ret.
    cbn [dt_date hour minute].
    destruct (is_trading_day src now (Some d) s) as [[b'|e] s'] eqn:E; cbn in H; [|done].
    injection H as ->. by destruct b. }
  rewrite !G. cbn. rewrite !andb_true_r, !andb_false_r.
  split_and!; try done. by intros ->.
Qed.

(** C2: when the calendar source fails, or returns no date, for every
    year of the fetch window, [is_trading_day] returns true for a
    weekday date and raises nothing. The fetch is attempted: the cache
    does not hold the year of the date already, unless it holds it
    with the empty set of an earlier failure. *)
Theorem weekday_fallback_when_source_fails (d : date) (s : State) :
  weekday d < 5 →
  (_last_fetch_year (self s) = Some (date_year d) → _trading_days (self s) = ∅) →
  (∀ (i : nat) y, window d s !! i = Some y →
                  no_dates (src (fetches (world s) + i)%nat) y) →
  fst (is_trading_day src now (Some d) s) = Return true.
Proof.
  intros Hw Hmemo Hsrc. rewrite is_trading_day_weekday by done. cbn [fst].
  destruct (decide (_last_fetch_year (self s) = Some (date_year d))) as [Hy|Hy].
  - rewrite fetch_hit by done. cbn. rewrite (Hmemo Hy). by rewrite bool_decide_eq_false_2 by auto.
  - rewrite fetch_miss by done. cbn.
    assert (E : collected src (fetches (world s)) (window d s) ∅ = ∅).
    { apply set_eq. intros x. rewrite elem_of_collected. split; [|by intros ?%not_elem_of_empty].
      intros [H|(i & y & rows & Hi & Hr & Hx & Hp)]; [done|].
      specialize (Hsrc i y Hi). rewrite Hr in Hsrc. cbn in Hsrc.
      rewrite (Hsrc x Hx) in Hp. done. }
    rewrite E. by rewrite bool_decide_eq_false_2 by auto.
Qed.

(** C3: on a Saturday or a Sunday [is_trading_day] returns false and
    leaves the whole state as it was: no call of the calendar source,
    the cached set and the reference year unchanged. *)
Theorem weekend_is_never_a_trading_day (d : date) (s : State) :
  weekday d = 5 ∨ weekday d = 6 →
  is_trading_day src now (Some d) s = (Return false, s).
Proof. intros H. apply is_trading_day_weekend. lia. Qed.

(** C4: after a call of [_fetch_trading_days], a call for a date of
    the same year returns the cached set, the one the first call
    returned, and changes nothing (no call of the source); a call for
    a date of another year calls the source again, once for each year
    of the new window, and the cached set becomes exactly the dates
    those responses hold for the years of the window: nothing of the
    old set is kept. *)
Theorem refresh_cache_memoizes_and_replaces (d1 d2 : date) (s : State) :
  let s1 := snd (_fetch_trading_days src d1 s) in
  let s2 := snd (_fetch_trading_days src d2 s1) in
  (date_year d2 = date_year d1 →
     _fetch_trading_days src d2 s1 = (Return (_trading_days (self s1)), s1)
     ∧ fst (_fetch_trading_days src d1 s) = Return (_trading_days (self s1)))
  ∧ (date_year d2 ≠ date_year d1 →
     fst (_fetch_trading_days src d2 s1) = Return (_trading_days (self s2))
     ∧ fetches (world s2)
       = (fetches (world s1) + Z.to_nat (2 * _fetch_year_range (self s1) + 1))%nat
     ∧ _last_fetch_year (self s2) = Some (date_year d2)
     ∧ ∀ x, x ∈ _trading_days (self s2) ↔
            ∃ (i : nat) y rows,
              window d2 s1 !! i = Some y
              ∧ src (fetches (world s1) + i)%nat = Frame rows
              ∧ x ∈ rows ∧ startswith x (str y) = true).
Proof.
  intros s1 s2.
  assert (Hlast : _last_fetch_year (self s1) = Some (date_year d1)).
  { subst s1. destruct (decide (_last_fetch_year (self s) = Some (date_year d1))).
    - by rewrite fetch_hit.
    - by rewrite fetch_miss. }
  split; intros Hy.
  - split.
    + apply fetch_hit. by rewrite Hy.
    + subst s1. destruct (decide (_last_fetch_year (self s) = Some (date_year d1))).
      * by rewrite fetch_hit.
      * by rewrite fetch_miss.
  - assert (Hm : _last_fetch_year (self s1) ≠ Some (date_year d2)) by congruence.
    subst s2. rewrite (fetch_miss _ _ _ Hm). cbn.
    split_and!; try done.
    + f_equal. unfold window, range. rewrite length_seqZ. f_equal. lia.
    + intros x. rewrite elem_of_collected. split.
      * intros [H|H]; [by apply not_elem_of_empty in H|done].
      * by right.
Qed.

(** C5: when [_fetch_trading_days] attempts a fetch (the stored
    reference year is not the year asked for), the stored reference
    year is that year afterwards, whatever was collected, the empty
    set included; so a repeated call for the same year returns the
    cached set and calls the source no more. *)
Theorem reference_year_recorded_after_fetch (d : date) (s : State) :
  _last_fetch_year (self s) ≠ Some (date_year d) →
  let s' := snd (_fetch_trading_days src d s) in
  _last_fetch_year (self s') = Some (date_year d)
  ∧ ∀ d2, date_year d2 = date_year d →
          _fetch_trading_days src d2 s' = (Return (_trading_days (self s')), s').
Proof.
  intros H s'. subst s'. rewrite (fetch_miss _ _ _ H). cbn. split; [done|].
  intros d2 Hy. apply fetch_hit. cbn. by rewrite Hy.
Qed.

End Claims.

Section Scan.

Variable src : nat -> response.
Variable now : nat -> datetime.

Lemma asked_true_weekday d k s : asked src now d k s = Return true → weekday (candidate d k) < 5.
Proof.
  unfold asked. intros H. destruct (Z_lt_le_dec (weekday (candidate d k)) 5) as [|Hw]; [done|].
  by rewrite is_trading_day_weekend in H.
Qed.

(** The loop of [get_next_trading_day], from the candidate [k0 + 1] on. *)
Lemma scan_spec d s : ∀ (n k0 : nat),
  0 ≤ toordinal d →
  toordinal d + Z.of_nat k0 + Z.of_nat n + 1 ≤ _MAXORDINAL →
  match fst (scan src now n (candidate d (S k0)) (probe src now d k0 s)) with
  | Return (Some d') =>
      ∃ k : nat, (k0 < k ≤ k0 + n)%nat ∧ d' = candidate d k
                 ∧ asked src now d k s = Return true
                 ∧ ∀ j : nat, (k0 < j < k)%nat → asked src now d j s = Return false
  | Return None => ∀ j : nat, (k0 < j ≤ k0 + n)%nat → asked src now d j s = Return false
  | Raise _ => False
  end.
Proof.
  induction n as [|n IH]; intros k0 Hd Hmax.
  - cbn. intros j Hj. lia.
  - cbn [scan]. unfold bind at 1.
    destruct (is_trading_day src now (Some (candidate d (S k0))) (probe src now d k0 s))
      as [[b|e] s1] eqn:E.
    2:{ destruct (is_trading_day_returns src now (candidate d (S k0)) (probe src now d k0 s)) as [b Hb].
        by rewrite E in Hb. }
    assert (Ha : asked src now d (S k0) s = Return b) by (unfold asked; cbn [pred]; by rewrite E).
    destruct b.
    + cbn. exists (S k0). split_and!; try done; try lia.
    + unfold bind, lift_result, date_add. cbn [toordinal candidate].
      destruct (_ && _) eqn:Hr.
      2:{ apply andb_false_iff in Hr as [Hr|Hr]; [apply Z.ltb_ge in Hr|apply Z.leb_gt in Hr]; lia. }
      assert (Es : s1 = probe src now d (S k0) s) by (cbn [probe]; by rewrite E).
      assert (Ec : fromordinal (toordinal d + Z.of_nat (S k0) + 1) = candidate d (S (S k0))).
      { unfold candidate. f_equal. lia. }
      rewrite Ec, Es. specialize (IH (S k0) Hd ltac:(lia)).
      destruct (fst (scan src now n _ _)) as [[d'|]|e].
      * destruct IH as (k & Hk & -> & Hk1 & Hk2). exists k. split_and!; try done; try lia.
        intros j Hj. destruct (decide (j = S k0)) as [->|]; [done|]. apply Hk2. lia.
      * intros j Hj. destruct (decide (j = S k0)) as [->|]; [done|]. apply IH. lia.
      * done.
Qed.

(** C6 (as amended): for a date [d] and a [max_days] such that the
    days [d + 1] to [d + max_days + 1] are dates (none is after
    9999-12-31), [get_next_trading_day] raises nothing; it returns the
    first candidate among [d + 1], ..., [d + max_days] for which
    [is_trading_day] answers true, the candidates being asked in
    order, and [None] when it answers false for all of them. A
    returned date is after [d] and is neither a Saturday nor a
    Sunday. *)
Theorem next_trading_day_is_first_match (d : date) (max_days : Z) (s : State) :
  1 ≤ toordinal d →
  toordinal d + Z.max max_days 0 + 1 ≤ _MAXORDINAL →
  match fst (get_next_trading_day src now (Some d) max_days s) with
  | Return (Some d') =>
      (∃ k : nat, (1 ≤ k)%nat ∧ Z.of_nat k ≤ max_days ∧ d' = candidate d k
                  ∧ asked src now d k s = Return true
                  ∧ ∀ j : nat, (1 ≤ j < k)%nat → asked src now d j s = Return false)
      ∧ toordinal d < toordinal d'
      ∧ weekday d' ≠ 5 ∧ weekday d' ≠ 6
  | Return None =>
      ∀ j : nat, (1 ≤ j)%nat → Z.of_nat j ≤ max_days → asked src now d j s = Return false
  | Raise _ => False
  end.
Proof.
  intros Hd Hmax. unfold get_next_trading_day, bind at 1, ret at 1.
  unfold bind, lift_result, date_add.
  destruct (_ && _) eqn:Hr.
  2:{ apply andb_false_iff in Hr as [Hr|Hr]; [apply Z.ltb_ge in Hr|apply Z.leb_gt in Hr]; lia. }
  pose proof (scan_spec d s (Z.to_nat max_days) 0 ltac:(lia) ltac:(lia)) as H.
  cbn [probe] in H. unfold candidate at 1 in H. change (Z.of_nat 1) with 1 in H.
  destruct (fst (scan src now _ _ _)) as [[d'|]|e]; [| |done].
  - destruct H as (k & Hk & -> & Hk1 & Hk2).
    pose proof (asked_true_weekday _ _ _ Hk1).
    split_and!; [|cbn; lia|lia|lia].
    exists k. split_and!; try done; try lia.
  - intros j Hj1 Hj2. apply H. lia.
Qed.

End Scan.

End CalendarFacts.

(* ------------------------------------------------------------------ *)
(** *** The calendar properties at work *)
(* ------------------------------------------------------------------ *)

Module CalendarRuns.

Import TradingDays Notions Scenarios CalendarFacts.

(** C1, witness: the source is down, 2024-01-05 is a Friday and so a
    trading day by the fallback, and the market counts as open at
    11:30:01. *)
Lemma market_open_witness :
  fst (is_trading_day offline noon (Some friday) blank) = Return true
  ∧ fst (is_market_open_time offline noon (Some (mkdatetime friday 11 30 1)) blank)
    = Return true.
Proof.
  assert (H : fst (is_trading_day offline noon (Some friday) blank) = Return true)
    by (vm_compute; reflexivity).
  split; [exact H|].
  exact (proj1 (proj2 (proj2
    (market_open_time_by_hour_and_minute offline noon friday blank true H)))).
Defined.

(** C1, counterexample: it is not so that [is_market_open_time] is
    false at 11:30:01 on every trading day. *)
Lemma market_open_at_11_30_01 :
  ¬ (∀ src now d s,
       fst (is_trading_day src now (Some d) s) = Return true →
       fst (is_market_open_time src now (Some (mkdatetime d 11 30 1)) s) = Return false).
Proof.
  intros H. specialize (H offline noon friday blank).
  vm_compute in H. specialize (H eq_refl). discriminate H.
Qed.

(** C2, witness: a new calendar and an unreachable source. *)
Lemma weekday_fallback_witness :
  weekday friday < 5
  ∧ fst (is_trading_day offline noon (Some friday) blank) = Return true.
Proof.
  split; [vm_compute; reflexivity|].
  apply (weekday_fallback_when_source_fails offline noon friday blank).
  - vm_compute; reflexivity.
  - cbn. discriminate.
  - intros i y _. exact I.
Defined.

(** Dates fetched earlier outlive the source: 2024-01-01, a Monday
    the cached calendar does not list, is no trading day even with the
    source down. The fallback of C2 is for a set that is empty. *)
Remark cached_dates_outlive_the_source :
  fst (is_trading_day offline noon (Some (fromordinal 738886)) stocked) = Return false.
Proof. vm_compute. reflexivity. Qed.

(** C3, witness: 2024-01-06 is a Saturday. *)
Lemma weekend_witness :
  (weekday saturday = 5 ∨ weekday saturday = 6)
  ∧ is_trading_day sina noon (Some saturday) blank = (Return false, blank).
Proof.
  assert (H : weekday saturday = 5 ∨ weekday saturday = 6)
    by (left; vm_compute; reflexivity).
  split; [exact H|].
  exact (weekend_is_never_a_trading_day sina noon saturday blank H).
Defined.

(** C4, witness: after a fetch for 2024-01-05, a call for 2024-01-04
    is answered from the cache, and a call for 2030-01-04 makes five
    more calls and leaves a cache with none of the dates of 2024. *)
Lemma refresh_cache_witness :
  let s1 := snd (_fetch_trading_days sina friday blank) in
  (date_year thursday = date_year friday
   ∧ _fetch_trading_days sina thursday s1 = (Return (_trading_days (self s1)), s1))
  ∧ (date_year friday_2030 ≠ date_year friday
     ∧ fetches (world (snd (_fetch_trading_days sina friday_2030 s1))) = 10%nat
     ∧ "2024-01-05" ∈ _trading_days (self s1)
     ∧ "2024-01-05" ∉ _trading_days (self (snd (_fetch_trading_days sina friday_2030 s1)))).
Proof.
  intros s1.
  assert (Hsame : date_year thursday = date_year friday) by (vm_compute; reflexivity).
  assert (Hother : date_year friday_2030 ≠ date_year friday) by (vm_compute; discriminate).
  split.
  - split; [exact Hsame|].
    exact (proj1 (proj1 (refresh_cache_memoizes_and_replaces sina friday thursday blank) Hsame)).
  - split; [exact Hother|].
    destruct (proj2 (refresh_cache_memoizes_and_replaces sina friday friday_2030 blank) Hother)
      as (_ & Hcalls & _ & Hset).
    split; [exact Hcalls|]. split.
    + vm_compute. reflexivity.
    + fold s1 in Hset. rewrite Hset. intros (i & y & rows & Hi & Hr & Hx & Hp).
      apply lookup_seqZ in Hi as [-> Hi]. change (Z.of_nat i < 5) in Hi.
      do 5 (destruct i as [|i]; [vm_compute in Hp; discriminate Hp|]). lia.
Defined.

(** C5, witness: the source is down, the set fetched is empty, and
    the year 2024 is recorded all the same. *)
Lemma reference_year_witness :
  _last_fetch_year (self blank) ≠ Some (date_year friday)
  ∧ _trading_days (self (snd (_fetch_trading_days offline friday blank))) = ∅
  ∧ _last_fetch_year (self (snd (_fetch_trading_days offline friday blank))) = Some 2024.
Proof.
  assert (H : _last_fetch_year (self blank) ≠ Some (date_year friday)) by (cbn; discriminate).
  split; [exact H|]. split; [vm_compute; reflexivity|].
  exact (proj1 (reference_year_recorded_after_fetch offline friday blank H)).
Defined.

(** C6, witness: from Friday 2024-01-05, a date that is returned is
    later and not on a weekend. *)
Lemma next_trading_day_witness :
  1 ≤ toordinal friday
  ∧ toordinal friday + Z.max 10 0 + 1 ≤ _MAXORDINAL
  ∧ ∀ d', fst (get_next_trading_day offline noon (Some friday) 10 blank) = Return (Some d') →
          toordinal friday < toordinal d' ∧ weekday d' ≠ 5 ∧ weekday d' ≠ 6.
Proof.
  assert (H1 : 1 ≤ toordinal friday) by (vm_compute; discriminate).
  assert (H2 : toordinal friday + Z.max 10 0 + 1 ≤ _MAXORDINAL) by (vm_compute; discriminate).
  split; [exact H1|]. split; [exact H2|]. intros d' Hd'.
  pose proof (next_trading_day_is_first_match offline noon friday 10 blank H1 H2) as T.
  rewrite Hd' in T. exact (proj2 T).
Defined.

(** C6, counterexample: it is not so that [get_next_trading_day]
    returns, a date or [None], for every date: from 9999-12-31 it
    raises [OverflowError]. *)
Lemma next_trading_day_overflows :
  ¬ (∀ src now d max_days s,
       ∃ r, fst (get_next_trading_day src now (Some d) max_days s) = Return r).
Proof.
  intros H. destruct (H offline noon last_day 10 blank) as [r Hr].
  vm_compute in Hr. discriminate Hr.
Qed.

End CalendarRuns.

(* ================================================================== *)
(** ** Properties of market_scheduler.py *)
(* ================================================================== *)

Module SchedulerFacts.

Import TradingDays MarketSchedule Notions Scenarios CalendarFacts.

Lemma steady_refl p : steady p p.
Proof. by repeat split. Qed.

Lemma steady_trans p q r : steady p q → steady q r → steady p r.
Proof. unfold steady. intros (?&?&?&?&?) (?&?&?&?&?). split_and!; congruence. Qed.

Section Scheduler.

Variable src : nat -> response.
Variable now : nat -> datetime.
Variable valid_at : string -> bool.
Variable next_run_at : string -> datetime -> datetime.
Variable arrivals : nat -> list async.

(** The module-level [is_trading_day] returns, and touches neither the
    scheduler nor its jobs. *)
Lemma is_trading_day_process target p :
  ∃ b, fst (MarketSchedule.is_trading_day src now target p) = Return b
       ∧ steady p (snd (MarketSchedule.is_trading_day src now target p))
       ∧ jobs (snd (MarketSchedule.is_trading_day src now target p)) = jobs p
       ∧ runs (env (snd (MarketSchedule.is_trading_day src now target p))) = runs (env p).
Proof.
  unfold MarketSchedule.is_trading_day, bind, get_trading_calendar, on_calendar.
  destruct (_trading_calendar_instance p) as [c|].
  - destruct (is_trading_day_frame src now target (mkState c (env p))) as (b & Hb & Hn & Hr).
    destruct (TradingDays.is_trading_day src now target _) as [r s]. cbn in *.
    exists b. by repeat split.
  - destruct (is_trading_day_frame src now target
                (mkState TradingDays.__init__ (env p))) as (b & Hb & Hn & Hr).
    cbn [env set_instance].
    destruct (TradingDays.is_trading_day src now target _) as [r s]. cbn in *.
    exists b. by repeat split.
Qed.

(** [_safe_run_task] with a callback, in one equation. *)
Lemma safe_run_task_eq task p :
  _task_callback p = Some task →
  _safe_run_task now p
  = let p1 := set_env (invoked (ticked (env p))) p in
    match task (runs (env p)) with
    | Some e => (if isinstance_Exception e then Return tt else Raise e, p1)
    | None => (Return tt, set_env (ticked (env p1)) p1)
    end.
Proof.
  intros H. unfold _safe_run_task, bind at 1, gets at 1. rewrite H.
  unfold try_except_Exception, bind, gets, modify, datetime_now, raise, ret. cbn.
  destruct (task (runs (env p))) as [e|]; [destruct e|]; reflexivity.
Qed.

Lemma safe_run_task_spec task p :
  _task_callback p = Some task →
  fst (_safe_run_task now p)
  = match task (runs (env p)) with
    | Some e => if isinstance_Exception e then Return tt else Raise e
    | None => Return tt
    end
  ∧ steady p (snd (_safe_run_task now p))
  ∧ jobs (snd (_safe_run_task now p)) = jobs p
  ∧ runs (env (snd (_safe_run_task now p))) = S (runs (env p)).
Proof.
  intros H. rewrite (safe_run_task_eq task p H). cbn zeta.
  destruct (task (runs (env p))) as [e|]; cbn; by repeat split.
Qed.


Lemma insert_same_at_time (js : list Job) i j t :
  js !! i = Some j →
  at_time <$> <[i := mkJob (at_time j) t]> js = at_time <$> js.
Proof.
  intros H. rewrite list_fmap_insert. apply list_insert_id.
  by rewrite list_lookup_fmap, H.
Qed.



(** Signals set the shutdown flag, [stop()] clears the running flag. *)
Lemma deliver_all_spec l : ∀ p,
  deliver_all l p
  = (Return tt,
     set_running (_running p && negb (existsb is_stop l))
       (set_shutdown_requested (shutdown_requested p || existsb is_signal l) p)).
Proof.
  induction l as [|a l IH]; intros p.
  - cbn. unfold ret. destruct p as [c js t sr cb rn w]; cbn.
    by rewrite orb_false_r, andb_true_r.
  - cbn [deliver_all]. unfold bind at 1.
    destruct a as [sig|]; cbn [deliver existsb is_stop is_signal].
    + unfold _signal_handler, bind, gets, modify, ret.
      destruct p as [c js t sr cb rn w]; destruct sr; cbn; rewrite IH; cbn;
        by rewrite ?orb_true_r.
    + unfold stop, modify. rewrite IH.
      destruct p as [c js t sr cb rn w]; cbn. by rewrite ?andb_false_r.
Qed.

Lemma heartbeat_spec p :
  ∃ w, heartbeat now p = (Return tt, set_env w p)
       ∧ runs w = runs (env p) ∧ naps w = naps (env p).
Proof.
  unfold heartbeat, bind, datetime_now, _get_next_run_time, gets, ret.
  destruct (minute _ =? 0); [destruct (second _ <? 30)|];
    eexists; (split; [reflexivity|]); by destruct p as [c js t sr cb rn [f k n r]].
Qed.

Lemma sleep_phase_spec p :
  ∃ p', sleep_phase now arrivals p = (Return tt, p')
  ∧ jobs p' = jobs p
  ∧ _task_callback p' = _task_callback p
  ∧ runs (env p') = runs (env p)
  ∧ naps (env p') = S (naps (env p))
  ∧ shutdown_requested p'
    = shutdown_requested p || existsb is_signal (arrivals (naps (env p)))
  ∧ _running p' = _running p && negb (existsb is_stop (arrivals (naps (env p)))).
Proof.
  unfold sleep_phase, time_sleep_30, bind at 1, bind at 1, gets at 1.
  unfold bind at 1, modify at 1. rewrite deliver_all_spec.
  set (p1 := set_running _ _).
  destruct (heartbeat_spec p1) as (w & -> & Hr & Hn).
  eexists; split; [reflexivity|].
  subst p1. destruct p as [c js t sr cb rn [f k n r]]. cbn in *. by repeat split.
Qed.

End Scheduler.

Section Claims.

Variable src : nat -> response.
Variable now : nat -> datetime.
Variable valid_at : string -> bool.
Variable next_run_at : string -> datetime -> datetime.
Variable arrivals : nat -> list async.

Lemma set_daily_task_eq task run_immediately p :
  set_daily_task src now valid_at next_run_at task run_immediately p
  = if valid_at (schedule_time p) then
      (if run_immediately then
         go <- _should_execute_task src now ;;
         if go then _safe_run_task now else ret tt
       else ret tt) (registered now next_run_at task p)
    else (Raise (Exception "ScheduleValueError: Invalid time format"),
          set_task_callback (Some task) p).
Proof.
  unfold set_daily_task, every_day_at_do, registered.
  unfold bind at 1, modify at 1, bind at 1, gets at 1, bind at 1.
  cbn [schedule_time set_task_callback].
  destruct (valid_at (schedule_time p)); [|done].
  by unfold bind at 1, datetime_now, modify.
Qed.

(** C7: when [set_daily_task] is called with [run_immediately] true
    and registers its trigger, the task is invoked exactly once before
    the call ends if the trading-day check made after the registration
    answers true, and not at all if it answers false. The check and
    the state it is made in are those of a registration without the
    immediate run; [b] is its answer. *)
Theorem immediate_run_only_on_trading_day (task : Callable) (p : Process) (b : bool) :
  fst (set_daily_task src now valid_at next_run_at task false p) = Return tt →
  fst (_should_execute_task src now
         (snd (set_daily_task src now valid_at next_run_at task false p))) = Return b →
  runs (env (snd (set_daily_task src now valid_at next_run_at task true p)))
  = if b then S (runs (env p)) else runs (env p).
Proof.
  rewrite !set_daily_task_eq. destruct (valid_at (schedule_time p)); [|done].
  set (p1 := registered now next_run_at task p). unfold ret at 1 2. cbn [fst snd].
  intros _ Hb. unfold bind, _should_execute_task in *.
  destruct (is_trading_day_process src now None p1) as (b' & Hb' & Hs & Hj & Hr).
  destruct (MarketSchedule.is_trading_day src now None p1) as [r p2]. cbn in Hb, Hb', Hs, Hj, Hr.
  rewrite Hb in Hb'. injection Hb' as <-. subst r.
  assert (Hp1 : runs (env p1) = runs (env p)) by done.
  destruct b; [|unfold ret; cbn; congruence].
  assert (Hc : _task_callback p2 = Some task) by (destruct Hs as (_&_&->&_); done).
  destruct (safe_run_task_spec now task p2 Hc) as (_ & _ & _ & Hr2).
  rewrite Hr2. congruence.
Qed.


(** C9: when a signal or a call of [stop()] arrives during the sleep
    of a loop cycle, the loop of [run] ends at the check that follows
    this sleep: [run] returns with the state at the end of the sleep,
    the task not invoked since, and no further sleep slept. A signal
    has set the shutdown flag, [stop()] has cleared the running flag;
    and from any state with the running flag false or the shutdown
    flag true the loop ends at once. *)
Theorem shutdown_during_sleep_ends_run (p0 p : Process) (a : async) (fuel : nat) :
  loop_condition p0 = true →
  run_pending src now next_run_at p0 = (Return tt, p) →
  a ∈ arrivals (naps (env p)) →
  ∃ p', sleep_phase now arrivals p = (Return tt, p')
        ∧ run_loop src now next_run_at arrivals (S fuel) p0 = Some (Return tt, p')
        ∧ runs (env p') = runs (env p)
        ∧ naps (env p') = S (naps (env p))
        ∧ match a with
          | Signal _ => shutdown_requested p' = true
          | Stop => _running p' = false
          end
        ∧ ∀ q fuel', _running q = false ∨ shutdown_requested q = true →
                     run_loop src now next_run_at arrivals fuel' q = Some (Return tt, q).
Proof.
  intros Hl Hp Ha.
  assert (Hexit : ∀ q fuel', _running q = false ∨ shutdown_requested q = true →
                     run_loop src now next_run_at arrivals fuel' q = Some (Return tt, q)).
  { intros q fuel' Hq. assert (loop_condition q = false) as Hc.
    { unfold loop_condition. destruct Hq as [-> | ->]; [done|]. by rewrite andb_false_r. }
    destruct fuel'; cbn; by rewrite Hc. }
  destruct (sleep_phase_spec now arrivals p) as (p' & Hq & _ & _ & Hr & Hn & Hsd & Hrun).
  assert (Hflag : match a with
                  | Signal _ => shutdown_requested p' = true
                  | Stop => _running p' = false
                  end).
  { destruct a as [sig|].
    - rewrite Hsd. apply orb_true_iff. right. apply existsb_exists.
      exists (Signal sig). split; [by apply list_elem_of_In|done].
    - rewrite Hrun. apply andb_false_iff. right. apply negb_false_iff, existsb_exists.
      exists Stop. split; [by apply list_elem_of_In|done]. }
  exists p'. split_and!; try done.
  cbn [run_loop]. rewrite Hl. unfold bind. rewrite Hp, Hq.
  apply Hexit. destruct a; auto.
Qed.

(** C10: without a registered callback [_safe_run_task] returns at
    once, raises nothing and leaves the state as it was. *)
Theorem safe_run_without_callback_does_nothing (p : Process) :
  _task_callback p = None →
  _safe_run_task now p = (Return tt, p).
Proof. intros H. unfold _safe_run_task, bind, gets. by rewrite H. Qed.

End Claims.

End SchedulerFacts.

(* ------------------------------------------------------------------ *)
(** *** The scheduler properties at work *)
(* ------------------------------------------------------------------ *)

Module SchedulerRuns.

Import TradingDays MarketSchedule Notions Scenarios SchedulerFacts.

(** C7, witness: registered on Friday 2024-01-05 the task runs once,
    the check the registration makes answering true; registered on
    Saturday 2024-01-06 it does not run. *)
Lemma immediate_run_witness :
  (fst (set_daily_task offline noon accept next_day quiet false office) = Return tt
   ∧ fst (_should_execute_task offline noon
            (snd (set_daily_task offline noon accept next_day quiet false office)))
     = Return true
   ∧ runs (env (snd (set_daily_task offline noon accept next_day quiet true office)))
     = 1%nat)
  ∧ (fst (set_daily_task offline weekend_noon accept next_day quiet false office) = Return tt
     ∧ fst (_should_execute_task offline weekend_noon
              (snd (set_daily_task offline weekend_noon accept next_day quiet false office)))
       = Return false
     ∧ runs (env (snd (set_daily_task offline weekend_noon accept next_day quiet true office)))
       = 0%nat).
Proof.
  assert (H1 : fst (set_daily_task offline noon accept next_day quiet false office)
               = Return tt) by (vm_compute; reflexivity).
  assert (H2 : fst (_should_execute_task offline noon
                      (snd (set_daily_task offline noon accept next_day quiet false office)))
               = Return true) by (vm_compute; reflexivity).
  assert (H3 : fst (set_daily_task offline weekend_noon accept next_day quiet false office)
               = Return tt) by (vm_compute; reflexivity).
  assert (H4 : fst (_should_execute_task offline weekend_noon
                      (snd (set_daily_task offline weekend_noon accept next_day quiet false
                              office)))
               = Return false) by (vm_compute; reflexivity).
  split; (split; [eassumption|]; split; [eassumption|]).
  - exact (immediate_run_only_on_trading_day
             offline noon accept next_day quiet office true H1 H2).
  - exact (immediate_run_only_on_trading_day
             offline weekend_noon accept next_day quiet office false H3 H4).
Defined.



(** C9, witness: a SIGINT during the first sleep. *)
Lemma shutdown_witness :
  loop_condition (at_work quiet) = true
  ∧ Signal SIGINT ∈ ctrl_c (naps (env (snd (run_pending offline noon next_day (at_work quiet)))))
  ∧ ∃ p', run_loop offline noon next_day ctrl_c 1 (at_work quiet) = Some (Return tt, p')
          ∧ shutdown_requested p' = true
          ∧ runs (env p') = 0%nat.
Proof.
  assert (H1 : loop_condition (at_work quiet) = true) by reflexivity.
  assert (H2 : run_pending offline noon next_day (at_work quiet)
               = (Return tt, snd (run_pending offline noon next_day (at_work quiet))))
    by (vm_compute; reflexivity).
  assert (H3 : Signal SIGINT
               ∈ ctrl_c (naps (env (snd (run_pending offline noon next_day (at_work quiet))))))
    by exact (list_elem_of_here _ _).
  split; [exact H1|]. split; [exact H3|].
  destruct (shutdown_during_sleep_ends_run offline noon next_day ctrl_c
              (at_work quiet) _ (Signal SIGINT) 0 H1 H2 H3)
    as (p' & _ & Hloop & Hruns & _ & Hflag & _).
  exists p'. split; [exact Hloop|]. split; [exact Hflag|]. exact Hruns.
Defined.

(** C10, witness: a scheduler no task was given to. *)
Lemma no_callback_witness :
  _task_callback office = None
  ∧ _safe_run_task noon office = (Return tt, office).
Proof.
  split; [reflexivity|].
  exact (safe_run_without_callback_does_nothing noon office eq_refl).
Defined.

End SchedulerRuns.


(* ================================================================== *)
(** ** Further properties of trading_days.py *)
(* ================================================================== *)

Module CalendarMore.

Import TradingDays Notions Scenarios CalendarFacts.

Section Calendar.

Variable src : nat -> response.
Variable now : nat -> datetime.

(** What [_fetch_trading_days] leaves behind. *)
Lemma fetch_effect d s :
  ∃ td, _fetch_trading_days src d s = (Return td, snd (_fetch_trading_days src d s))
        ∧ _fetch_year_range (self (snd (_fetch_trading_days src d s)))
          = _fetch_year_range (self s)
        ∧ (fetches (world (snd (_fetch_trading_days src d s))) = fetches (world s)
           ∨ fetches (world (snd (_fetch_trading_days src d s)))
             = (fetches (world s) + Z.to_nat (2 * _fetch_year_range (self s) + 1))%nat).
Proof.
  destruct (decide (_last_fetch_year (self s) = Some (date_year d))) as [Hy|Hy].
  - rewrite fetch_hit by done. eexists. split_and!; try done. by left.
  - rewrite fetch_miss by done. eexists. split_and!; try done. right. cbn.
    unfold window, range. rewrite length_seqZ. do 2 f_equal. lia.
Qed.

(** X1: [is_trading_day], for a given date or for today, always
    returns a boolean: nothing the calendar source does makes it
    raise. It leaves [_fetch_year_range] as it was, and it calls the
    source either not at all or once for each year of the window,
    [2 * _fetch_year_range + 1] times. *)
Theorem is_trading_day_always_answers (target : option date) (s : State) :
  let s' := snd (is_trading_day src now target s) in
  (∃ b, fst (is_trading_day src now target s) = Return b)
  ∧ _fetch_year_range (self s') = _fetch_year_range (self s)
  ∧ (fetches (world s') = fetches (world s)
     ∨ fetches (world s')
       = (fetches (world s) + Z.to_nat (2 * _fetch_year_range (self s) + 1))%nat).
Proof.
  assert (G : ∀ d s,
    let s' := snd (is_trading_day src now (Some d) s) in
    (∃ b, fst (is_trading_day src now (Some d) s) = Return b)
    ∧ _fetch_year_range (self s') = _fetch_year_range (self s)
    ∧ (fetches (world s') = fetches (world s)
       ∨ fetches (world s')
         = (fetches (world s) + Z.to_nat (2 * _fetch_year_range (self s) + 1))%nat)).
  { clear s. intros d s. cbn zeta. destruct (Z_lt_le_dec (weekday d) 5).
    - rewrite is_trading_day_weekday by done. cbn [fst snd].
      destruct (fetch_effect d s) as (td & _ & Hr & Hf). eauto.
    - rewrite is_trading_day_weekend by done. cbn. eauto. }
  destruct target as [d|]; [apply G|].
  cbn zeta. rewrite is_trading_day_today.
  destruct (G (dt_date (now (ticks (world s)))) (set_world ticked s)) as (Hb & Hr & Hf).
  split_and!; done.
Qed.

(** X2: on a weekday of the year the calendar holds,
    [is_trading_day] calls nothing and changes nothing; it answers
    true when the cached set is empty (an earlier failed fetch stays
    in force for the year), and otherwise whether the ['%Y-%m-%d']
    text of the date is in the cached set. *)
Theorem cached_year_is_answered_from_cache (d : date) (s : State) :
  weekday d < 5 →
  _last_fetch_year (self s) = Some (date_year d) →
  is_trading_day src now (Some d) s
  = (Return (if bool_decide (_trading_days (self s) = ∅) then true
             else bool_decide (strftime_Ymd d ∈ _trading_days (self s))),
     s).
Proof.
  intros Hw Hy. rewrite is_trading_day_weekday by done. rewrite fetch_hit by done.
  cbn. do 2 f_equal. repeat case_bool_decide; done.
Qed.

Lemma clock_leb_encoding h1 m1 h2 m2 :
  0 ≤ m1 < 100 → 0 ≤ m2 < 100 →
  (h1 * 100 + m1 <=? h2 * 100 + m2) = clock_leb h1 m1 h2 m2.
Proof.
  intros H1 H2. unfold clock_leb.
  destruct (h1 <? h2) eqn:E1; [apply Z.ltb_lt in E1|apply Z.ltb_ge in E1]; cbn.
  - apply Z.leb_le. lia.
  - destruct (h1 =? h2) eqn:E2; [apply Z.eqb_eq in E2|apply Z.eqb_neq in E2]; cbn.
    + subst. destruct (m1 <=? m2) eqn:E3; [apply Z.leb_le in E3; apply Z.leb_le|
        apply Z.leb_gt in E3; apply Z.leb_gt]; lia.
    + apply Z.leb_gt. lia.
Qed.

(** X3: for a minute between 0 and 59, the comparison of
    [hour * 100 + minute] made by [is_market_open_time] is the
    comparison of clock times: the answer is true exactly on a trading
    day between 09:30 and 11:30 or between 13:00 and 15:00, the
    seconds playing no part. *)
Theorem market_session_is_clock_comparison (d : date) (h m sec : Z) (s : State) (b : bool) :
  0 ≤ m < 60 →
  fst (is_trading_day src now (Some d) s) = Return b →
  fst (is_market_open_time src now (Some (mkdatetime d h m sec)) s)
  = Return (b && in_session h m).
Proof.
  intros Hm H. unfold is_market_open_time, bind, ret. cbn [dt_date hour minute].
  destruct (is_trading_day src now (Some d) s) as [[b'|e] s'] eqn:E; cbn in H; [|done].
  injection H as ->. destruct b; cbn [negb fst andb]; [|done].
  unfold in_session.
  change 930 with (9 * 100 + 30). change 1130 with (11 * 100 + 30).
  change 1300 with (13 * 100 + 0). change 1500 with (15 * 100 + 0).
  rewrite !clock_leb_encoding by lia. done.
Qed.

(** X4: with [max_days] zero or negative, [get_next_trading_day]
    asks about no candidate: it returns [None] and leaves the state as
    it was, for every date before 9999-12-31. *)
Theorem no_lookahead_no_candidate (d : date) (max_days : Z) (s : State) :
  max_days ≤ 0 →
  0 ≤ toordinal d < _MAXORDINAL →
  get_next_trading_day src now (Some d) max_days s = (Return None, s).
Proof.
  intros Hmax Hd. unfold get_next_trading_day, bind, ret, lift_result, date_add.
  destruct (_ && _) eqn:Hr.
  2:{ apply andb_false_iff in Hr as [Hr|Hr]; [apply Z.ltb_ge in Hr|apply Z.leb_gt in Hr]; lia. }
  replace (Z.to_nat max_days) with 0%nat by lia. done.
Qed.

Lemma scan_overflows d s : ∀ (n k0 : nat),
  toordinal d + Z.of_nat k0 + 1 ≤ _MAXORDINAL →
  _MAXORDINAL ≤ toordinal d + Z.of_nat k0 + Z.of_nat n →
  (∀ k : nat, (k0 < k)%nat → toordinal d + Z.of_nat k ≤ _MAXORDINAL →
              asked src now d k s = Return false) →
  fst (scan src now n (candidate d (S k0)) (probe src now d k0 s)) = Raise OverflowError.
Proof.
  induction n as [|n IH]; intros k0 Hlo Hhi Hno; [lia|].
  cbn [scan]. unfold bind at 1.
  pose proof (Hno (S k0) ltac:(lia) ltac:(lia)) as Ha. unfold asked in Ha. cbn [pred] in Ha.
  destruct (is_trading_day src now (Some (candidate d (S k0))) (probe src now d k0 s))
    as [r s1] eqn:E. cbn in Ha. subst r.
  unfold bind, lift_result, date_add. cbn [toordinal candidate].
  destruct (_ && _) eqn:Hr; [|done].
  apply andb_true_iff in Hr as [_ Hr]. apply Z.leb_le in Hr.
  assert (Es : s1 = probe src now d (S k0) s) by (cbn [probe]; by rewrite E).
  assert (Ec : fromordinal (toordinal d + Z.of_nat (S k0) + 1) = candidate d (S (S k0))).
  { unfold candidate. f_equal. lia. }
  rewrite Ec, Es. apply IH; [lia|lia|]. intros k Hk. apply Hno. lia.
Qed.

(** X5: when the lookahead reaches the last date, 9999-12-31, and
    no candidate up to it is a trading day, [get_next_trading_day]
    raises [OverflowError] instead of returning [None]. *)
Theorem scan_past_last_day_overflows (d : date) (max_days : Z) (s : State) :
  1 ≤ toordinal d ≤ _MAXORDINAL →
  _MAXORDINAL ≤ toordinal d + Z.max max_days 0 →
  (∀ k : nat, (1 ≤ k)%nat → toordinal d + Z.of_nat k ≤ _MAXORDINAL →
              asked src now d k s = Return false) →
  fst (get_next_trading_day src now (Some d) max_days s) = Raise OverflowError.
Proof.
  intros Hd Hmax Hno. unfold get_next_trading_day, bind at 1, ret at 1.
  unfold bind, lift_result, date_add.
  destruct (_ && _) eqn:Hr; [|done].
  apply andb_true_iff in Hr as [_ Hr]. apply Z.leb_le in Hr.
  pose proof (scan_overflows d s (Z.to_nat max_days) 0 ltac:(lia) ltac:(lia)) as H.
  cbn [probe] in H. unfold candidate at 1 in H. change (Z.of_nat 1) with 1 in H.
  apply H. intros k Hk. apply Hno. lia.
Qed.

Lemma collected_silent n years : silent src → collected src n years ∅ = ∅.
Proof.
  intros Hs. apply set_eq. intros x. rewrite elem_of_collected.
  split; [|by intros ?%not_elem_of_empty].
  intros [H|(i & y & rows & Hi & Hr & Hx & Hp)]; [done|].
  specialize (Hs (n + i)%nat y). rewrite Hr in Hs. cbn in Hs.
  rewrite (Hs x Hx) in Hp. done.
Qed.

(** With a source that gives no date and an empty cache, the answer
    is the weekday rule, and the cache stays empty. *)
Lemma silent_answer d s :
  silent src → _trading_days (self s) = ∅ →
  ∃ s', is_trading_day src now (Some d) s = (Return (weekday d <? 5), s')
        ∧ _trading_days (self s') = ∅.
Proof.
  intros Hs He. destruct (Z_lt_le_dec (weekday d) 5) as [Hw|Hw].
  - rewrite is_trading_day_weekday by done.
    replace (weekday d <? 5) with true by (symmetry; apply Z.ltb_lt; lia).
    destruct (decide (_last_fetch_year (self s) = Some (date_year d))) as [Hy|Hy].
    + rewrite fetch_hit by done. cbn. rewrite He.
      rewrite bool_decide_eq_false_2 by auto. eauto.
    + rewrite fetch_miss by done. cbn. rewrite collected_silent by done.
      rewrite bool_decide_eq_false_2 by auto. eauto.
  - rewrite is_trading_day_weekend by done.
    replace (weekday d <? 5) with false by (symmetry; apply Z.ltb_ge; lia). eauto.
Qed.

Lemma scan_silent_step n c s :
  silent src → _trading_days (self s) = ∅ →
  ∃ s', _trading_days (self s') = ∅
        ∧ scan src now (S n) c s
          = if weekday c <? 5 then (Return (Some c), s')
            else (check_date' <- lift_result (date_add c 1) ;; scan src now n check_date') s'.
Proof.
  intros Hs He. destruct (silent_answer c s Hs He) as (s' & Hr & He').
  exists s'. split; [done|]. cbn [scan]. unfold bind at 1. rewrite Hr.
  by destruct (weekday c <? 5).
Qed.

(** X6: with a source that gives no date and an empty cache,
    [get_next_trading_day] with a lookahead of three days or more
    returns the next day from Monday to Friday: a date one to three
    days after the given one, every day in between being a Saturday or
    a Sunday. *)
Theorem next_weekday_when_source_silent (d : date) (max_days : Z) (s : State) :
  silent src →
  _trading_days (self s) = ∅ →
  1 ≤ toordinal d →
  toordinal d + 3 ≤ _MAXORDINAL →
  3 ≤ max_days →
  ∃ d', fst (get_next_trading_day src now (Some d) max_days s) = Return (Some d')
        ∧ toordinal d < toordinal d' ≤ toordinal d + 3
        ∧ weekday d' < 5
        ∧ ∀ e : date, toordinal d < toordinal e < toordinal d' → 5 ≤ weekday e.
Proof.
  intros Hs He Hd Hmax Hn.
  destruct (Z.to_nat max_days) as [|[|[|n]]] eqn:En; try lia.
  unfold get_next_trading_day, bind at 1, ret at 1. rewrite En.
  unfold bind at 1, lift_result at 1, date_add at 1.
  destruct (_ && _) eqn:Hr.
  2:{ apply andb_false_iff in Hr as [Hr|Hr]; [apply Z.ltb_ge in Hr|apply Z.leb_gt in Hr]; lia. }
  clear Hr. set (c1 := fromordinal (toordinal d + 1)).
  destruct (scan_silent_step (S (S n)) c1 s Hs He) as (s1 & He1 & ->).
  destruct (weekday c1 <? 5) eqn:W1.
  { apply Z.ltb_lt in W1. exists c1. cbn. split_and!; try done; try lia. }
  apply Z.ltb_ge in W1.
  unfold bind at 1, lift_result at 1, date_add at 1.
  destruct (_ && _) eqn:Hr.
  2:{ apply andb_false_iff in Hr as [Hr|Hr]; [apply Z.ltb_ge in Hr|apply Z.leb_gt in Hr];
      subst c1; cbn in Hr; lia. }
  clear Hr. set (c2 := fromordinal (toordinal c1 + 1)).
  destruct (scan_silent_step (S n) c2 s1 Hs He1) as (s2 & He2 & ->).
  destruct (weekday c2 <? 5) eqn:W2.
  { apply Z.ltb_lt in W2. exists c2. cbn. split_and!; try done; try lia.
    intros e Hlt. unfold weekday in *. cbn in W1. replace (toordinal e) with (toordinal d + 1) by lia.
    done. }
  apply Z.ltb_ge in W2.
  unfold bind at 1, lift_result at 1, date_add at 1.
  destruct (_ && _) eqn:Hr.
  2:{ apply andb_false_iff in Hr as [Hr|Hr]; [apply Z.ltb_ge in Hr|apply Z.leb_gt in Hr];
      subst c1 c2; cbn in Hr; lia. }
  clear Hr. set (c3 := fromordinal (toordinal c2 + 1)).
  destruct (scan_silent_step n c3 s2 Hs He2) as (s3 & He3 & ->).
  assert (W3 : weekday c3 < 5).
  { unfold weekday in *. subst c1 c2 c3. cbn in *. Z.div_mod_to_equations. lia. }
  replace (weekday c3 <? 5) with true by (symmetry; apply Z.ltb_lt; lia).
  exists c3. cbn. split_and!; try done; try lia.
  intros e Hlt. unfold weekday in *. subst c1 c2. cbn in *.
  assert (toordinal e = toordinal d + 1 ∨ toordinal e = toordinal d + 1 + 1) as [-> | ->] by lia;
    done.
Qed.

End Calendar.

End CalendarMore.

(* ================================================================== *)
(** ** Further properties of market_scheduler.py *)
(* ================================================================== *)

Module SchedulerMore.

Import TradingDays MarketSchedule Notions Scenarios CalendarFacts SchedulerFacts.

Section Gate.

Variable src : nat -> response.
Variable now : nat -> datetime.
Variable valid_at : string -> bool.
Variable next_run_at : string -> datetime -> datetime.
Variable arrivals : nat -> list async.

(** A query for a year the calendar holds changes nothing. *)
Lemma cached_year_unchanged d s :
  _last_fetch_year (self s) = Some (date_year d) →
  snd (TradingDays.is_trading_day src now (Some d) s) = s.
Proof.
  intros Hy. destruct (Z_lt_le_dec (weekday d) 5).
  - rewrite is_trading_day_weekday by done. cbn. by rewrite fetch_hit.
  - by rewrite is_trading_day_weekend.
Qed.

Lemma weekday_query_caches_year d s :
  weekday d < 5 →
  _last_fetch_year (self (snd (TradingDays.is_trading_day src now (Some d) s)))
  = Some (date_year d).
Proof.
  intros Hw. rewrite is_trading_day_weekday by done. cbn.
  destruct (decide (_last_fetch_year (self s) = Some (date_year d))).
  - by rewrite fetch_hit.
  - by rewrite fetch_miss.
Qed.

(** X7: the module-level [is_trading_day] makes the calendar on
    first use and keeps it: once a weekday has been asked about, a
    question about any date of the same year leaves the whole process
    as it is, with no further call of the source. *)
Theorem calendar_singleton_shares_cache (d1 d2 : date) (p : Process) :
  weekday d1 < 5 →
  date_year d2 = date_year d1 →
  let p1 := snd (MarketSchedule.is_trading_day src now (Some d1) p) in
  is_Some (_trading_calendar_instance p1)
  ∧ snd (MarketSchedule.is_trading_day src now (Some d2) p1) = p1.
Proof.
  intros Hw Hy p1.
  assert (H1 : ∃ c, _trading_calendar_instance p1 = Some c
                    ∧ _last_fetch_year c = Some (date_year d1)).
  { subst p1. unfold MarketSchedule.is_trading_day, bind, get_trading_calendar, on_calendar.
    destruct (_trading_calendar_instance p) as [c|].
    - pose proof (weekday_query_caches_year d1 (mkState c (env p)) Hw) as Hc.
      destruct (TradingDays.is_trading_day src now (Some d1) _) as [r s1]. cbn in *. eauto.
    - cbn [env set_instance].
      pose proof (weekday_query_caches_year d1 (mkState TradingDays.__init__ (env p)) Hw) as Hc.
      destruct (TradingDays.is_trading_day src now (Some d1) _) as [r s1]. cbn in *. eauto. }
  destruct H1 as (c & Hc & Hlast). split; [by rewrite Hc|].
  unfold MarketSchedule.is_trading_day, bind, get_trading_calendar, on_calendar. rewrite Hc.
  pose proof (cached_year_unchanged d2 (mkState c (env p1))) as Hs.
  rewrite Hy in Hs. specialize (Hs Hlast).
  destruct (TradingDays.is_trading_day src now (Some d2) _) as [r s2]. cbn in *. subst s2.
  cbn. rewrite <- Hc. by destruct p1.
Qed.

(** [_safe_run_task] whatever the callback is. *)
Lemma safe_run_task_any p :
  steady p (snd (_safe_run_task now p))
  ∧ jobs (snd (_safe_run_task now p)) = jobs p
  ∧ (runs (env p) ≤ runs (env (snd (_safe_run_task now p))) ≤ S (runs (env p)))%nat.
Proof.
  destruct (_task_callback p) as [task|] eqn:Hc.
  - destruct (safe_run_task_spec now task p Hc) as (_ & Hs & Hj & Hr).
    split_and!; try done; lia.
  - assert (E : _safe_run_task now p = (Return tt, p))
      by (unfold _safe_run_task, bind, gets; by rewrite Hc).
    rewrite E. cbn. split_and!; try done; try lia; apply steady_refl.
Qed.

Lemma scheduled_job_any p :
  steady p (snd (scheduled_job src now p))
  ∧ jobs (snd (scheduled_job src now p)) = jobs p
  ∧ (runs (env p) ≤ runs (env (snd (scheduled_job src now p))) ≤ S (runs (env p)))%nat.
Proof.
  unfold scheduled_job, bind, _should_execute_task.
  destruct (is_trading_day_process src now None p) as (b & Hb & Hs & Hj & Hr).
  destruct (MarketSchedule.is_trading_day src now None p) as [r p1]. cbn in *. subst r.
  destruct b.
  - destruct (safe_run_task_any p1) as (Hs' & Hj' & Hr').
    split_and!; [by eapply steady_trans|congruence|lia|lia].
  - cbn. split_and!; try done; lia.
Qed.

(** X9: the job registered by [set_daily_task], when it fires,
    asks whether today is a trading day and invokes the task exactly
    once if the answer is true, not at all if it is false. *)
Theorem scheduled_job_runs_task_on_trading_days_only (task : Callable) (p : Process) (b : bool) :
  _task_callback p = Some task →
  fst (_should_execute_task src now p) = Return b →
  runs (env (snd (scheduled_job src now p)))
  = if b then S (runs (env p)) else runs (env p).
Proof.
  intros Hc Hb. unfold scheduled_job, bind, _should_execute_task in *.
  destruct (is_trading_day_process src now None p) as (b' & Hb' & Hs & Hj & Hr).
  destruct (MarketSchedule.is_trading_day src now None p) as [r p1]. cbn in *.
  rewrite Hb in Hb'. injection Hb' as <-. subst r.
  destruct b; [|by cbn].
  assert (Hc1 : _task_callback p1 = Some task) by (destruct Hs as (_&_&->&_); done).
  destruct (safe_run_task_spec now task p1 Hc1) as (_ & _ & _ & Hr2). congruence.
Qed.


End Gate.

Section Loop.

Variable src : nat -> response.
Variable now : nat -> datetime.
Variable valid_at : string -> bool.
Variable next_run_at : string -> datetime -> datetime.
Variable arrivals : nat -> list async.

(** X10: [set_daily_task] always stores the callback and invokes
    the task at most once. When the time string is accepted it adds
    exactly one job, at the end of the jobs and for the scheduler's
    time string, also when the immediate run raises; when the time
    string is rejected it raises [ScheduleValueError], adds no job and
    does not invoke the task. *)
Theorem registration_adds_one_job (task : Callable) (run_immediately : bool) (p : Process) :
  let p' := snd (set_daily_task src now valid_at next_run_at task run_immediately p) in
  _task_callback p' = Some task
  ∧ (runs (env p) ≤ runs (env p') ≤ S (runs (env p)))%nat
  ∧ if valid_at (schedule_time p) then
      jobs p' = jobs p ++ [mkJob (schedule_time p)
                             (next_run_at (schedule_time p) (now (ticks (env p))))]
    else
      fst (set_daily_task src now valid_at next_run_at task run_immediately p)
      = Raise (Exception "ScheduleValueError: Invalid time format")
      ∧ jobs p' = jobs p ∧ runs (env p') = runs (env p).
Proof.
  cbn zeta. rewrite set_daily_task_eq.
  destruct (valid_at (schedule_time p)); [|cbn; split_and!; try done; lia].
  set (p1 := registered now next_run_at task p).
  assert (H1 : _task_callback p1 = Some task ∧ runs (env p1) = runs (env p)
               ∧ jobs p1 = jobs p ++ [mkJob (schedule_time p)
                             (next_run_at (schedule_time p) (now (ticks (env p))))]) by done.
  destruct H1 as (Hc & Hr & Hj).
  destruct run_immediately; [|cbn; split_and!; try done; lia].
  unfold bind, _should_execute_task.
  destruct (is_trading_day_process src now None p1) as (b & Hb & Hs & Hj1 & Hr1).
  destruct (MarketSchedule.is_trading_day src now None p1) as [r p2]. cbn in Hb, Hs, Hj1, Hr1.
  subst r. destruct b.
  - destruct (safe_run_task_any now p2) as (Hs2 & Hj2 & Hr2).
    destruct Hs as (_&_&Hc1&_). destruct Hs2 as (_&_&Hc2&_).
    split_and!; [congruence|lia|lia|congruence].
  - cbn. destruct Hs as (_&_&Hc1&_). split_and!; [congruence|lia|lia|congruence].
Qed.

(** A round of [run_pending], whatever the task does. *)
Lemma run_jobs_any : ∀ count i p,
  ∃ r p', run_jobs src now next_run_at count i p = (r, p')
          ∧ steady p p'
          ∧ at_time <$> jobs p' = at_time <$> jobs p.
Proof.
  induction count as [|count IH]; intros i p.
  - exists (Return tt), p. split_and!; try done; apply steady_refl.
  - cbn [run_jobs]. unfold bind at 1, gets at 1.
    destruct (jobs p !! i) as [j|] eqn:Ej.
    2:{ exists (Return tt), p. split_and!; try done; apply steady_refl. }
    unfold bind at 1, datetime_now at 1. unfold bind at 1.
    set (p1 := set_env (ticked (env p)) p).
    assert (Hs1 : steady p p1) by (by repeat split).
    destruct (datetime_leb (next_run j) (now (ticks (env p)))).
    + unfold bind at 1.
      destruct (scheduled_job_any src now p1) as (Hs & Hj & _).
      destruct (scheduled_job src now p1) as [[[]|e] p2]; cbn in Hs, Hj.
      * unfold bind at 1, datetime_now at 1, modify at 1.
        set (p4 := set_jobs _ _).
        destruct (IH (S i) p4) as (r & p' & Hr' & Hs' & Hj').
        exists r, p'. split_and!; [done| |].
        -- eapply steady_trans; [exact Hs1|]. eapply steady_trans; [|exact Hs'].
           subst p4. destruct Hs as (?&?&?&?&?). by repeat split.
        -- rewrite Hj'. subst p4. cbn [jobs set_jobs set_env].
           rewrite insert_same_at_time by (by rewrite Hj). by rewrite Hj.
      * exists (Raise e), p2. split_and!; [done| |by rewrite Hj].
        by eapply steady_trans.
    + destruct (IH (S i) p1) as (r & p' & Hr' & Hs' & Hj').
      exists r, p'. split_and!; [done| |done]. by eapply steady_trans.
Qed.

(** One cycle of the loop of [run]. *)
Lemma cycle_any p :
  ∃ r p', (run_pending src now next_run_at ;;; sleep_phase now arrivals) p = (r, p')
          ∧ at_time <$> jobs p' = at_time <$> jobs p
          ∧ _task_callback p' = _task_callback p
          ∧ (shutdown_requested p = true → shutdown_requested p' = true).
Proof.
  unfold bind, run_pending at 1. unfold bind at 1, gets at 1.
  destruct (run_jobs_any (length (jobs p)) 0 p) as (r & p1 & -> & Hs & Hj).
  destruct Hs as (_ & Hsd & Hc & _).
  destruct r as [[]|e].
  - destruct (sleep_phase_spec now arrivals p1) as (p2 & -> & Hj2 & Hc2 & _ & _ & Hsd2 & _).
    exists (Return tt), p2. split_and!; [done|congruence|congruence|].
    intros H. rewrite Hsd2, Hsd, H. done.
  - exists (Raise e), p1. split_and!; [done|done|done|congruence].
Qed.

Lemma run_loop_outcome : ∀ fuel p r p',
  run_loop src now next_run_at arrivals fuel p = Some (r, p') →
  at_time <$> jobs p' = at_time <$> jobs p
  ∧ _task_callback p' = _task_callback p
  ∧ (shutdown_requested p = true → shutdown_requested p' = true)
  ∧ (r = Return tt → loop_condition p' = false).
Proof.
  induction fuel as [|fuel IH]; intros p r p'; cbn [run_loop];
    destruct (loop_condition p) eqn:Hl; try done.
  - intros [= <- <-]. done.
  - destruct (cycle_any p) as (r1 & p1 & -> & Hj & Hc & Hsd).
    destruct r1 as [[]|e].
    + intros H. destruct (IH _ _ _ H) as (Hj' & Hc' & Hsd' & Hr').
      split_and!; [congruence|congruence|auto|done].
    + intros [= <- <-]. split_and!; done.
  - intros [= <- <-]. done.
Qed.

(** X11: whatever the task does, when [run] ends the jobs are
    registered with the times they had, the callback is the same, and
    a shutdown request made before is still there; and when [run]
    returns normally, the running flag is false or a shutdown was
    requested. *)
Theorem run_returns_only_when_told_to_stop (fuel : nat) (p p' : Process) (r : result unit) :
  run src now next_run_at arrivals fuel p = Some (r, p') →
  at_time <$> jobs p' = at_time <$> jobs p
  ∧ _task_callback p' = _task_callback p
  ∧ (shutdown_requested p = true → shutdown_requested p' = true)
  ∧ (r = Return tt → _running p' = false ∨ shutdown_requested p' = true).
Proof.
  unfold run, bind, modify, _get_next_run_time, gets. intros H.
  destruct (run_loop_outcome _ _ _ _ H) as (Hj & Hc & Hsd & Hr).
  split_and!; try done. intros Hret. specialize (Hr Hret).
  unfold loop_condition in Hr. apply andb_false_iff in Hr as [Hr|Hr]; [by left|].
  right. by apply negb_false_iff.
Qed.

(** X12: a shutdown request made before [run] is called makes
    [run] return at once, with no job run and no sleep; a [stop()]
    made before [run] is called has no effect, [run] setting the
    running flag again. *)
Theorem signal_before_run_is_kept_stop_is_not (fuel : nat) (p : Process) :
  (shutdown_requested p = true →
   run src now next_run_at arrivals fuel p = Some (Return tt, set_running true p))
  ∧ run src now next_run_at arrivals fuel (snd (stop p))
    = run src now next_run_at arrivals fuel p.
Proof.
  split.
  - intros H. unfold run, bind, modify, _get_next_run_time, gets.
    assert (Hl : loop_condition (set_running true p) = false)
      by (unfold loop_condition; cbn; by rewrite H).
    destruct fuel; cbn [run_loop]; by rewrite Hl.
  - reflexivity.
Qed.



End Loop.

Lemma datetime_leb_spec a b :
  datetime_leb a b = true ↔
  toordinal (dt_date a) < toordinal (dt_date b)
  ∨ toordinal (dt_date a) = toordinal (dt_date b)
    ∧ (hour a < hour b
       ∨ hour a = hour b
         ∧ (minute a < minute b ∨ minute a = minute b ∧ second a ≤ second b)).
Proof.
  unfold datetime_leb.
  rewrite !orb_true_iff, !andb_true_iff, !orb_true_iff, !andb_true_iff, !orb_true_iff,
    !andb_true_iff, !Z.ltb_lt, !Z.eqb_eq, !Z.leb_le. tauto.
Qed.

Lemma datetime_leb_refl a : datetime_leb a a = true.
Proof. apply datetime_leb_spec. lia. Qed.

Lemma datetime_leb_trans a b c :
  datetime_leb a b = true → datetime_leb b c = true → datetime_leb a c = true.
Proof. rewrite !datetime_leb_spec. lia. Qed.

Lemma datetime_leb_total a b : datetime_leb a b = false → datetime_leb b a = true.
Proof.
  intros H. apply datetime_leb_spec.
  assert (N : ¬ (datetime_leb a b = true)) by (by rewrite H).
  rewrite datetime_leb_spec in N. lia.
Qed.

(** The fold of [_get_next_run_time] is [min] over the jobs. *)
Lemma earliest_spec (js : list Job) :
  match foldr (fun j acc =>
                 match acc with
                 | None => Some (next_run j)
                 | Some t => Some (if datetime_leb (next_run j) t then next_run j else t)
                 end) None js with
  | None => js = []
  | Some t => (∃ j, j ∈ js ∧ t = next_run j)
              ∧ ∀ j, j ∈ js → datetime_leb t (next_run j) = true
  end.
Proof.
  induction js as [|j js IH]; [done|]. cbn [foldr].
  destruct (foldr _ None js) as [t|].
  - destruct IH as [(j0 & Hj0 & ->) Hmin].
    destruct (datetime_leb (next_run j) (next_run j0)) eqn:E.
    + split; [exists j; split; [left|done]|].
      intros j' [->|Hj']%elem_of_cons; [apply datetime_leb_refl|].
      eapply datetime_leb_trans; [exact E|]. by apply Hmin.
    + split; [exists j0; split; [by right|done]|].
      intros j' [->|Hj']%elem_of_cons; [by apply datetime_leb_total|]. by apply Hmin.
  - subst js. split; [exists j; split; [left|done]|].
    intros j' [->|Hj']%elem_of_cons; [apply datetime_leb_refl|]. by apply elem_of_nil in Hj'.
Qed.

(** X14: [_get_next_run_time] changes nothing; it finds no time
    exactly when no job is registered, and otherwise the [next_run] of
    a registered job that is no later than the [next_run] of every
    registered job. *)
Theorem next_run_time_is_earliest (p : Process) :
  snd (_get_next_run_time p) = p
  ∧ match fst (_get_next_run_time p) with
    | Return None => jobs p = []
    | Return (Some t) =>
        (∃ j, j ∈ jobs p ∧ t = next_run j)
        ∧ ∀ j, j ∈ jobs p → datetime_leb t (next_run j) = true
    | Raise _ => False
    end.
Proof.
  split; [done|]. unfold _get_next_run_time, gets. cbn [fst].
  apply earliest_spec.
Qed.

End SchedulerMore.

(* ------------------------------------------------------------------ *)
(** *** The further properties at work *)
(* ------------------------------------------------------------------ *)

Module MoreRuns.

Import TradingDays MarketSchedule Notions Scenarios CalendarMore SchedulerMore.

(** X2, witness: the stocked calendar lists 2024-01-05. *)
Lemma cached_year_witness :
  weekday friday < 5
  ∧ _last_fetch_year (self stocked) = Some (date_year friday)
  ∧ TradingDays.is_trading_day offline noon (Some friday) stocked = (Return true, stocked).
Proof.
  assert (H1 : weekday friday < 5) by (vm_compute; reflexivity).
  assert (H2 : _last_fetch_year (self stocked) = Some (date_year friday))
    by (vm_compute; reflexivity).
  split; [exact H1|]. split; [exact H2|].
  rewrite (cached_year_is_answered_from_cache offline noon friday stocked H1 H2).
  vm_compute. reflexivity.
Defined.

(** X3, witness: 11:30:59 on a trading day is inside the session. *)
Lemma market_session_witness :
  0 ≤ 30 < 60
  ∧ fst (TradingDays.is_trading_day offline noon (Some friday) blank) = Return true
  ∧ fst (is_market_open_time offline noon (Some (mkdatetime friday 11 30 59)) blank)
    = Return true.
Proof.
  assert (H1 : 0 ≤ 30 < 60) by lia.
  assert (H2 : fst (TradingDays.is_trading_day offline noon (Some friday) blank) = Return true)
    by (vm_compute; reflexivity).
  split; [exact H1|]. split; [exact H2|].
  exact (market_session_is_clock_comparison offline noon friday 11 30 59 blank true H1 H2).
Defined.

(** X4, witness: a lookahead of zero days. *)
Lemma no_lookahead_witness :
  0 ≤ 0
  ∧ 0 ≤ toordinal friday < _MAXORDINAL
  ∧ TradingDays.get_next_trading_day offline noon (Some friday) 0 blank = (Return None, blank).
Proof.
  assert (H1 : 0 ≤ 0) by lia.
  assert (H2 : 0 ≤ toordinal friday < _MAXORDINAL)
    by (vm_compute; split; [discriminate|reflexivity]).
  split; [exact H1|]. split; [exact H2|].
  exact (no_lookahead_no_candidate offline noon friday 0 blank H1 H2).
Defined.

(** X5, witness: from 9999-12-30, with a calendar of 9999 that does
    not list 9999-12-31. *)
Lemma scan_past_last_day_witness :
  1 ≤ toordinal penultimate_day ≤ _MAXORDINAL
  ∧ _MAXORDINAL ≤ toordinal penultimate_day + Z.max 5 0
  ∧ fst (TradingDays.get_next_trading_day offline noon (Some penultimate_day) 5 year_end)
    = Raise OverflowError.
Proof.
  assert (H1 : 1 ≤ toordinal penultimate_day ≤ _MAXORDINAL)
    by (vm_compute; split; discriminate).
  assert (H2 : _MAXORDINAL ≤ toordinal penultimate_day + Z.max 5 0)
    by (vm_compute; discriminate).
  split; [exact H1|]. split; [exact H2|].
  apply (scan_past_last_day_overflows offline noon penultimate_day 5 year_end H1 H2).
  intros k Hk Hle. change (3652058 + Z.of_nat k ≤ 3652059) in Hle.
  assert (k = 1%nat) as -> by lia. vm_compute. reflexivity.
Defined.

(** X6, witness: with the source down, the trading day after Friday
    2024-01-05 is Monday 2024-01-08. *)
Lemma next_weekday_witness :
  silent offline
  ∧ _trading_days (self blank) = ∅
  ∧ fst (TradingDays.get_next_trading_day offline noon (Some friday) 10 blank) = Return (Some monday).
Proof.
  assert (H1 : silent offline) by (intros n y; exact I).
  assert (H2 : _trading_days (self blank) = ∅) by reflexivity.
  split; [exact H1|]. split; [exact H2|].
  destruct (next_weekday_when_source_silent offline noon friday 10 blank H1 H2)
    as (d' & Hd' & _); [vm_compute; discriminate ..|].
  pose proof Hd' as E. vm_compute in E. injection E as <-. exact Hd'.
Defined.

(** X7, witness: Friday 2024-01-05, then Thursday 2024-01-04. *)
Lemma calendar_singleton_witness :
  weekday friday < 5
  ∧ date_year thursday = date_year friday
  ∧ snd (MarketSchedule.is_trading_day sina noon (Some thursday)
           (snd (MarketSchedule.is_trading_day sina noon (Some friday) office)))
    = snd (MarketSchedule.is_trading_day sina noon (Some friday) office).
Proof.
  assert (H1 : weekday friday < 5) by (vm_compute; reflexivity).
  assert (H2 : date_year thursday = date_year friday) by (vm_compute; reflexivity).
  split; [exact H1|]. split; [exact H2|].
  exact (proj2 (calendar_singleton_shares_cache sina noon friday thursday office H1 H2)).
Defined.


(** X9, witness: the job fires on Friday 2024-01-05. *)
Lemma scheduled_job_witness :
  _task_callback (at_work quiet) = Some quiet
  ∧ fst (_should_execute_task offline noon (at_work quiet)) = Return true
  ∧ runs (env (snd (scheduled_job offline noon (at_work quiet)))) = 1%nat.
Proof.
  assert (H1 : _task_callback (at_work quiet) = Some quiet) by reflexivity.
  assert (H2 : fst (_should_execute_task offline noon (at_work quiet)) = Return true)
    by (vm_compute; reflexivity).
  split; [exact H1|]. split; [exact H2|].
  exact (scheduled_job_runs_task_on_trading_days_only
           offline noon quiet (at_work quiet) true H1 H2).
Defined.

(** X11, witness: a run ended by SIGINT during the first sleep. *)
Lemma run_returns_witness :
  ∃ p', run offline noon next_day ctrl_c 1 (at_work quiet) = Some (Return tt, p')
        ∧ (_running p' = false ∨ shutdown_requested p' = true).
Proof.
  destruct (run offline noon next_day ctrl_c 1 (at_work quiet)) as [[r p']|] eqn:E.
  - assert (r = Return tt) as -> by (vm_compute in E; injection E as <- _; reflexivity).
    exists p'. split; [reflexivity|].
    exact (proj2 (proj2 (proj2
      (run_returns_only_when_told_to_stop offline noon next_day ctrl_c 1
         (at_work quiet) p' (Return tt) E))) eq_refl).
  - vm_compute in E. discriminate E.
Defined.

(** X12, witness: a scheduler that got SIGINT before [run]. *)
Lemma signal_before_run_witness :
  shutdown_requested signalled = true
  ∧ run offline noon next_day ctrl_c 5 signalled = Some (Return tt, set_running true signalled).
Proof.
  assert (H : shutdown_requested signalled = true) by reflexivity.
  split; [exact H|].
  exact (proj1 (signal_before_run_is_kept_stop_is_not offline noon next_day ctrl_c 5 signalled) H).
Defined.


End MoreRuns.
